(** * joblib.externals.cloudpickle: the object-reduction core

    A shallow embedding of [joblib/externals/cloudpickle/cloudpickle.py]:
    the reference resolver ([_whichmodule], [_should_pickle_by_reference]),
    the global-binding extractor ([_walk_global_ops],
    [_extract_code_globals]), the identity tracker and the skeleton
    reconstructors ([_make_skeleton_class], [_make_skeleton_enum],
    [_dynamic_class_reduce]), the per-type reducers ([_cell_reduce],
    [_file_reduce], [_extract_class_dict]) and the function restore procedure
    ([_function_setstate]).

    Python objects are modelled by their address ([ref]) where identity
    matters; dictionaries are finite maps from names to values; module-level
    mutable state (the by-value set, the two tracker registries, the extractor
    cache) is threaded explicitly; a raising call returns [Raise]. *)

From stdpp Require Import gmap strings list fin_maps.

Open Scope string_scope.

(** ** Values, exceptions, results *)

(** The address of a heap object; [x is y] on heap objects compares addresses. *)
Definition ref := positive.

(** A Python value as the reducers see it: the [None] singleton, an integer,
    a string, or a heap object given by its address. *)
Inductive value :=
| VNone
| VInt (z : Z)
| VStr (s : string)
| VObj (a : ref).

Arguments VObj a%_positive.

Global Instance value_eq_dec : EqDecision value.
Proof. solve_decision. Defined.

(** [a is b]: [None] is a singleton and heap objects are compared by address;
    the integers and strings of the model stand for interned constants, equal
    exactly when they are the same object. *)
Definition py_is (a b : value) : bool := bool_decide (a = b).

(** The exception classes the embedded code raises or meets. The first five
    derive from [Exception]; [KeyboardInterrupt] and [SystemExit] derive from
    [BaseException] only, so an [except Exception] clause lets them through. *)
Inductive exn :=
| AttributeError
| ValueError
| IndexError
| TypeError
| PicklingError (msg : string)
| KeyboardInterrupt
| SystemExit.

Definition is_Exception (e : exn) : bool :=
  match e with
  | KeyboardInterrupt | SystemExit => false
  | _ => true
  end.

(** The outcome of a call: a returned value or a raised exception. *)
Inductive result (A : Type) :=
| Ret (a : A)
| Raise (e : exn).
Arguments Ret {A} a.
Arguments Raise {A} e.

Global Instance result_ret : MRet result := λ A a, Ret a.

(** Sequencing: an exception raised by the first call ends the computation. *)
Global Instance result_bind : MBind result := λ A B k r,
  match r with
  | Ret a => k a
  | Raise e => Raise e
  end.

(** A dictionary with string keys, as [cls.__dict__], [func.__globals__]. *)
Abbreviation pydict := (gmap string value).

(** ** Classes and [_extract_class_dict] *)

(** A class object: its address, the address of its metaclass ([type(cls)]),
    and the attributes the reducers read. *)
#[warnings="-register-all"]
Inductive pyclass := PyClass {
  cls_addr : ref;
  cls_type : ref;
  cls___name__ : string;
  cls___module__ : value;
  cls___qualname__ : value;
  cls___bases__ : list pyclass;
  cls___dict__ : pydict
}.

Arguments PyClass (cls_addr cls_type)%_positive cls___name__ cls___module__
  cls___qualname__ cls___bases__ cls___dict__.

(** One round of the loop over [inherited_dict.items()]:
    [if name in clsdict and clsdict[name] is value: clsdict.pop(name)]. *)
Definition drop_inherited (name : string) (v : value) (clsdict : pydict) : pydict :=
  match clsdict !! name with
  | Some v' => if py_is v' v then delete name clsdict else clsdict
  | None => clsdict
  end.

Definition _extract_class_dict (cls : pyclass) : pydict :=
  let clsdict := cls___dict__ cls in
  match cls___bases__ cls with
  | [base] =>
      let inherited_dict := cls___dict__ base in
      map_fold drop_inherited clsdict inherited_dict
  | _ => clsdict
  end.

(** ** Closure cells and [_cell_reduce] *)

(** A closure cell is empty or holds one value. *)
Definition cell := option value.

(** [obj.cell_contents]: reading an empty cell raises [ValueError]. *)
Definition cell_contents (obj : cell) : result value :=
  match obj with
  | Some v => Ret v
  | None => Raise ValueError
  end.

(** The [_empty_cell_value] singleton, created once at import time. *)
Definition addr__empty_cell_value : ref := 7%positive.
Definition _empty_cell_value : value := VObj addr__empty_cell_value.

Definition _cell_reduce (obj : cell) : result value :=
  f ← cell_contents obj;
  Ret (if py_is f VNone then _empty_cell_value else f).

(** ** Streams and [_file_reduce] *)

(** A text stream: [closed], [mode], the whole content and the read position. *)
Record pyfile := PyFile {
  file_closed : bool;
  file_mode : string;
  file_content : string;
  file_pos : nat
}.

Fixpoint string_drop (n : nat) (s : string) : string :=
  match n, s with
  | O, _ => s
  | S n', String _ s' => string_drop n' s'
  | S _, EmptyString => EmptyString
  end.

(** [obj.read()]: the content from the current position on; the position
    moves to the end. *)
Definition file_read (obj : pyfile) : string * pyfile :=
  (string_drop (file_pos obj) (file_content obj),
   PyFile (file_closed obj) (file_mode obj) (file_content obj)
          (Nat.max (file_pos obj) (String.length (file_content obj)))).

(** The callables a reduce value of the embedded reducers names. *)
Inductive constructor :=
| io_StringIO
| builtin_type
| ctor__make_skeleton_class.

(** [_file_reduce] returns the pair [(io.StringIO, (obj.read(),))]; the second
    component of the outcome is the stream after the call. *)
Definition _file_reduce (obj : pyfile) : result (constructor * string) * pyfile :=
  if file_closed obj then
    (Raise (PicklingError "Cannot pickle closed files"), obj)
  else if bool_decide (file_mode obj = "r") then
    let '(data, obj') := file_read obj in
    (Ret (io_StringIO, data), obj')
  else
    (Raise (PicklingError "Cannot pickle files in write mode"), obj).





(** ** Modules and the reference resolver *)

(** What [module.__file__] gives: no such attribute, [None], or a path. *)
Inductive file_attr :=
| NoFileAttr
| FileNone
| FilePath (path : string).

Record pymodule := PyModule {
  mod_addr : ref;
  mod___name__ : string;
  mod___file__ : file_attr
}.

Arguments PyModule mod_addr%_positive mod___name__ mod___file__.

(** [sys.modules]: a dictionary in insertion order whose values are module
    objects or [None]. *)
Abbreviation sys_modules := (list (string * option pymodule)).

(** [sys.modules.get(module_name, None)]. *)
Fixpoint sys_modules_get (mods : sys_modules) (module_name : string) : option pymodule :=
  match mods with
  | [] => None
  | (k, module) :: rest =>
      if bool_decide (k = module_name) then module else sys_modules_get rest module_name
  end.

(** The object handed to the resolver: the value itself, whether
    [isinstance(obj, type)], and [getattr(obj, '__module__', None)] and
    [getattr(obj, '__name__', None)], where [None] stands for an attribute that
    is missing or is [None]. *)
Record pyobj := PyObj {
  obj_value : value;
  obj_is_type : bool;
  obj___module__ : option string;
  obj___name__ : option string
}.

(** The process-wide by-value policy set, empty at import time. *)
Definition _PICKLE_BY_VALUE_MODULES : gset string := ∅.

(** The body of [register_pickle_by_value] is [pass]: the set is left as it
    is. *)
Definition register_pickle_by_value (module : pymodule) (by_value : gset string) : gset string :=
  by_value.

(** The body of [unregister_pickle_by_value] is [pass] as well. *)
Definition unregister_pickle_by_value (module : pymodule) (by_value : gset string) : gset string :=
  by_value.

Section Resolver.

(** [pickle._getattribute(module, name)] belongs to the standard library: it
    walks the dotted [name] from [module] and returns the pair (object,
    parent), or raises. *)
Variable _getattribute : pymodule → string → result (value * value).

(** The loop of [_whichmodule] over [list(sys.modules.items())]. *)
Fixpoint scan_modules (obj : pyobj) (name : string) (mods : sys_modules)
    : result (option string) :=
  match mods with
  | [] => Ret None
  | (module_name, module) :: rest =>
      if bool_decide (module_name = "__main__") then scan_modules obj name rest
      else match module with
      | None => scan_modules obj name rest
      | Some module =>
          match _getattribute module name with
          | Ret (found, _) =>
              if py_is found (obj_value obj) then Ret (Some module_name)
              else scan_modules obj name rest
          | Raise e =>
              (* except Exception: pass *)
              if is_Exception e then scan_modules obj name rest else Raise e
          end
      end
  end.

Definition _whichmodule (mods : sys_modules) (obj : pyobj) (name : string)
    : result (option string) :=
  if obj_is_type obj && bool_decide (obj___module__ obj = Some "__main__") then
    Ret (obj___module__ obj)
  else
    let module_name := obj___module__ obj in
    match module_name with
    | Some _ => Ret module_name
    | None => scan_modules obj name mods
    end.

Definition _should_pickle_by_reference (by_value : gset string) (mods : sys_modules)
    (obj : pyobj) (name : option string) : result bool :=
  let name := match name with None => obj___name__ obj | Some _ => name end in
  match name with
  | None => Ret false
  | Some name =>
      module_name ← _whichmodule mods obj name;
      match module_name with
      | None => Ret false
      | Some module_name =>
          if bool_decide (module_name = "__main__") then Ret false
          else match sys_modules_get mods module_name with
          | None => Ret false
          | Some module =>
              if bool_decide (module_name ∈ by_value) then Ret false
              else match mod___file__ module with
              | NoFileAttr => Ret true
              | FileNone => Ret false
              | FilePath _ => Ret true
              end
          end
      end
  end.

(** The name the decision works with: the argument, or [obj.__name__]. *)
Definition derived_name (obj : pyobj) (name : option string) : option string :=
  match name with None => obj___name__ obj | Some _ => name end.

(** A candidate of the scan is an entry that is neither ['__main__'] nor
    [None]; it matches when its lookup of [name] returns the object itself. *)
Definition candidate_matches (obj : pyobj) (name : string)
    (entry : string * option pymodule) : Prop :=
  entry.1 ≠ "__main__" ∧
  ∃ module found parent, entry.2 = Some module ∧
    _getattribute module name = Ret (found, parent) ∧ found = obj_value obj.

(** Every exception a candidate's lookup raises is an [Exception]. *)
Definition raises_only_Exception (name : string) (entry : string * option pymodule) : Prop :=
  ∀ module e, entry.1 ≠ "__main__" → entry.2 = Some module →
    _getattribute module name = Raise e → is_Exception e = true.

End Resolver.

(** ** Compiled units and the global-binding extractor *)

(** The opcode numbers come from [opcode.opmap]; these are their values in
    CPython 3.8 to 3.12. *)
Definition STORE_GLOBAL : nat := 97.
Definition DELETE_GLOBAL : nat := 98.
Definition LOAD_GLOBAL : nat := 116.
Definition GLOBAL_OPS : list nat := [STORE_GLOBAL; DELETE_GLOBAL; LOAD_GLOBAL].

(** One element of [dis.get_instructions(code)]. *)
Record instr := Instr {
  instr_opcode : nat;
  instr_arg : nat
}.

(** [instr.opname] is [opcode.opname[instr.opcode]]; only the three global
    instructions are told apart, every other opcode reads ["<other>"]. *)
Definition instr_opname (i : instr) : string :=
  if bool_decide (instr_opcode i = STORE_GLOBAL) then "STORE_GLOBAL"
  else if bool_decide (instr_opcode i = DELETE_GLOBAL) then "DELETE_GLOBAL"
  else if bool_decide (instr_opcode i = LOAD_GLOBAL) then "LOAD_GLOBAL"
  else "<other>".

Global Instance instr_eq_dec : EqDecision instr.
Proof. solve_decision. Defined.

(** A code object: the instruction stream as [dis] decodes it, [co_names] and
    [co_consts]; a constant is a nested code object or some other value. *)
Inductive pycode :=
| PyCode (instrs : list instr) (names : list string) (consts : list pyconst)
with pyconst :=
| ConstCode (c : pycode)
| ConstValue (v : value).

Definition co_instrs (co : pycode) : list instr :=
  match co with PyCode instrs _ _ => instrs end.
Definition co_names (co : pycode) : list string :=
  match co with PyCode _ names _ => names end.
Definition co_consts (co : pycode) : list pyconst :=
  match co with PyCode _ _ consts => consts end.

Definition _walk_global_ops (code : pycode) : list instr :=
  filter (λ instr, instr_opcode instr ∈ GLOBAL_OPS) (co_instrs code).

(** [co.co_names[instr.arg]]: an index out of range raises [IndexError]. *)
Definition names_getitem (names : list string) (i : nat) : result string :=
  match names !! i with
  | Some n => Ret n
  | None => Raise IndexError
  end.

(** The first loop of [_extract_code_globals]. *)
Fixpoint collect_global_names (names : list string) (instrs : list instr)
    (out_names : gset string) : result (gset string) :=
  match instrs with
  | [] => Ret out_names
  | instr :: rest =>
      if bool_decide (instr_opname instr ∈ ["LOAD_GLOBAL"; "STORE_GLOBAL"; "DELETE_GLOBAL"]) then
        n ← names_getitem names (instr_arg instr);
        collect_global_names names rest (out_names ∪ {[ n ]})
      else collect_global_names names rest out_names
  end.

Fixpoint pycode_eq_dec (a b : pycode) {struct a} : Decision (a = b)
with pyconst_eq_dec (a b : pyconst) {struct a} : Decision (a = b).
Proof.
  - destruct a as [i1 n1 c1], b as [i2 n2 c2].
    destruct (decide (i1 = i2)) as [->|]; [|right; congruence].
    destruct (decide (n1 = n2)) as [->|]; [|right; congruence].
    assert (Decision (c1 = c2)) as [->|].
    { revert c2. induction c1 as [|x c1 IH]; intros [|y c2].
      - left; reflexivity.
      - right; discriminate.
      - right; discriminate.
      - destruct (pyconst_eq_dec x y) as [->|]; [|right; congruence].
        destruct (IH c2) as [->|]; [left; reflexivity | right; congruence]. }
    + left; reflexivity.
    + right; congruence.
  - destruct a as [c1|v1], b as [c2|v2].
    + destruct (pycode_eq_dec c1 c2) as [->|]; [left; reflexivity | right; congruence].
    + right; discriminate.
    + right; discriminate.
    + destruct (decide (v1 = v2)) as [->|]; [left; reflexivity | right; congruence].
Defined.

Global Instance pycode_eq : EqDecision pycode := pycode_eq_dec.

(** [_extract_code_globals_cache]: code objects hash and compare by content, so
    the dictionary is keyed by the code object up to equality. The newest entry
    for a key comes first. *)
Abbreviation extract_cache := (list (pycode * gset string)).

(** [co in cache] followed by [cache[co]]. *)
Fixpoint cache_lookup (cache : extract_cache) (co : pycode) : option (gset string) :=
  match cache with
  | [] => None
  | (k, v) :: rest => if decide (k = co) then Some v else cache_lookup rest co
  end.

(** [cache[co] = out_names]. *)
Definition cache_store (co : pycode) (out_names : gset string) (cache : extract_cache)
    : extract_cache :=
  (co, out_names) :: filter (λ kv, kv.1 ≠ co) cache.

(** The second loop of [_extract_code_globals], over [co.co_consts]; [extract]
    is the recursive call. *)
Fixpoint extract_nested
    (extract : pycode → extract_cache → result (gset string) * extract_cache)
    (consts : list pyconst) (out_names : gset string) (cache : extract_cache)
    : result (gset string) * extract_cache :=
  match consts with
  | [] => (Ret out_names, cache)
  | ConstCode const :: rest =>
      match extract const cache with
      | (Ret names_of_const, cache) =>
          extract_nested extract rest (out_names ∪ names_of_const) cache
      | (Raise e, cache) => (Raise e, cache)
      end
  | ConstValue _ :: rest => extract_nested extract rest out_names cache
  end.

(** [_extract_code_globals]; the second component is the memo table after the
    call. *)
Fixpoint _extract_code_globals (co : pycode) (cache : extract_cache) {struct co}
    : result (gset string) * extract_cache :=
  match cache_lookup cache co with
  | Some out_names => (Ret out_names, cache)
  | None =>
      match co with
      | PyCode instrs names consts =>
          match collect_global_names names (_walk_global_ops co) ∅ with
          | Raise e => (Raise e, cache)
          | Ret out_names =>
              match extract_nested _extract_code_globals consts out_names cache with
              | (Ret out_names, cache) => (Ret out_names, cache_store co out_names cache)
              | (Raise e, cache) => (Raise e, cache)
              end
          end
      end
  end.

(** How the interpreter reads the argument of a global instruction. Before
    CPython 3.11 the argument is the index of the name in [co_names]. From 3.11
    on the argument of [LOAD_GLOBAL] holds a flag in its lowest bit and the
    index in the bits above it; [STORE_GLOBAL] and [DELETE_GLOBAL] are
    unchanged. *)
Inductive interpreter :=
| Before_3_11
| From_3_11.

(** The index in [co_names] of the name an instruction operates on; [dis]
    reports that name as [instr.argval]. *)
Definition name_index (py : interpreter) (i : instr) : nat :=
  match py with
  | Before_3_11 => instr_arg i
  | From_3_11 =>
      if bool_decide (instr_opcode i = LOAD_GLOBAL) then Nat.div2 (instr_arg i)
      else instr_arg i
  end.

(** The names the extractor is to find, as the specification words it: [n] is
    the operand of a global read, write or delete instruction of the unit, or
    of a unit nested among its constants. *)
Inductive names_global (py : interpreter) : pycode → string → Prop :=
| names_global_here co i n :
    i ∈ co_instrs co →
    instr_opcode i ∈ [LOAD_GLOBAL; STORE_GLOBAL; DELETE_GLOBAL] →
    co_names co !! name_index py i = Some n →
    names_global py co n
| names_global_nested co c n :
    ConstCode c ∈ co_consts co →
    names_global py c n →
    names_global py co n.

(** The argument of every global instruction of the unit, and of the units
    nested in it, is an index into [co_names]. *)
Inductive code_wf : pycode → Prop :=
| code_wf_intro co :
    (∀ i, i ∈ co_instrs co → instr_opcode i ∈ GLOBAL_OPS →
          instr_arg i < length (co_names co)) →
    (∀ c, ConstCode c ∈ co_consts co → code_wf c) →
    code_wf co.

(** The same check as a function that can be run on a given unit. *)
Fixpoint code_wfb (co : pycode) : bool :=
  match co with
  | PyCode instrs names consts =>
      forallb (λ i, bool_decide (instr_arg i < length names)) (_walk_global_ops co)
      && forallb (λ k, match k with ConstCode c => code_wfb c | ConstValue _ => true end)
                 consts
  end.

(** The memo table holds, for each unit in it, the names of that unit. *)
Definition cache_sound (py : interpreter) (cache : extract_cache) : Prop :=
  ∀ co out_names, cache_lookup cache co = Some out_names →
    ∀ n, n ∈ out_names ↔ names_global py co n.

(** What one call establishes: it returns the names of the unit and leaves a
    sound memo table that holds the result. *)
Definition extract_ok (py : interpreter) (co : pycode) : Prop :=
  ∀ cache, cache_sound py cache → code_wf co →
    ∃ s cache',
      _extract_code_globals co cache = (Ret s, cache') ∧
      (∀ n, n ∈ s ↔ names_global py co n) ∧
      cache_sound py cache' ∧
      cache_lookup cache' co = Some s.

(** ** The identity tracker and the skeleton reconstructors *)

(** The state of one process that the reconstructors read and write:
    [_DYNAMIC_CLASS_TRACKER_BY_CLASS] (keyed by the class, that is by its
    address), [_DYNAMIC_CLASS_TRACKER_BY_ID], and the next free address. Both
    registries are weak; the model covers the time during which the registered
    classes are alive. *)
Record runtime := Runtime {
  _DYNAMIC_CLASS_TRACKER_BY_CLASS : gmap ref string;
  _DYNAMIC_CLASS_TRACKER_BY_ID : gmap string pyclass;
  next_addr : ref
}.

(** The registries at import time. Addresses below [1000] belong to objects
    that exist before any reconstruction. *)
Definition initial_runtime : runtime := Runtime ∅ ∅ 1000%positive.

Definition addr_NoneType : ref := 2%positive.
Definition addr_type : ref := 3%positive.
Definition addr_EnumMeta : ref := 4%positive.

(** [_DYNAMIC_CLASS_TRACKER_BY_ID[class_tracker_id] = cls] and
    [_DYNAMIC_CLASS_TRACKER_BY_CLASS[cls] = class_tracker_id]. *)
Definition track (class_tracker_id : string) (cls : pyclass) (rt : runtime) : runtime :=
  Runtime (<[cls_addr cls := class_tracker_id]> (_DYNAMIC_CLASS_TRACKER_BY_CLASS rt))
          (<[class_tracker_id := cls]> (_DYNAMIC_CLASS_TRACKER_BY_ID rt))
          (next_addr rt).

(** Take [n] fresh addresses. *)
Definition allocate (n : positive) (rt : runtime) : runtime :=
  Runtime (_DYNAMIC_CLASS_TRACKER_BY_CLASS rt) (_DYNAMIC_CLASS_TRACKER_BY_ID rt)
          (next_addr rt + n)%positive.

(** The class [cls] placed at the address [a]. *)
Definition at_address (a : ref) (cls : pyclass) : pyclass :=
  PyClass a (cls_type cls) (cls___name__ cls) (cls___module__ cls) (cls___qualname__ cls)
          (cls___bases__ cls) (cls___dict__ cls).

Arguments at_address a%_positive cls.

Section Skeleton.

(** [Meta(name, bases, clsdict)] is run by the interpreter's type constructor:
    given the metaclass, the name, the bases and the namespace it returns the
    class it creates, or raises (a base whose metaclass is not [type] conflicts
    with [Meta], a ['__qualname__'] that is no string is refused, the bases
    may admit no method resolution order). The address of the class is given by
    the allocator, not by this call. *)
Variable type_call : ref → string → list pyclass → pydict → result pyclass.

(** The creation of the member-less enum class is run by the metaclass:
    [metacls.__prepare__(name, bases)],
    [metacls.__new__(metacls, name, bases, classdict)] and the assignments of
    [__module__] and [__qualname__] on the new class. Given the metaclass, the
    name, the bases, the module and the qualified name, they return the class
    or raise. *)
Variable enum_new : ref → string → list pyclass → value → value → result pyclass.

(** The body of the loop over [members] is run on the member type and the
    metaclass of the enum class:
    [enum_class._member_type_.__new__(enum_class._member_type_, member_name)],
    the assignments of [_name_] and [_value_], and [setattr] on the class.
    Given the class, the name and the value of the member and the address the
    member is allocated at, they return the class as [setattr] leaves it, or
    raise (with the member type [object] the first call raises [TypeError]). *)
Variable member_attach : pyclass → string → value → ref → result pyclass.

(** [_make_skeleton_class]. The local metaclass [Meta] is a new class object at
    every call; the class that [Meta(name, bases, clsdict)] returns is
    allocated next. The argument [type_constructor] is not read. *)
Definition _make_skeleton_class (type_constructor : ref) (name : string)
    (bases : list pyclass) (type_kwargs : pydict) (class_tracker_id : option string)
    (extra : value) (rt : runtime) : result pyclass * runtime :=
  match class_tracker_id ≫= λ i, _DYNAMIC_CLASS_TRACKER_BY_ID rt !! i with
  | Some registered => (Ret registered, rt)
  | None =>
      let Meta := next_addr rt in
      let rt := allocate 1 rt in
      let clsdict := map_fold (λ k v (clsdict : pydict), <[k := v]> clsdict) ∅ type_kwargs in
      match type_call Meta name bases clsdict with
      | Raise e => (Raise e, rt)
      | Ret cls =>
          let cls := at_address (next_addr rt) cls in
          let rt := allocate 1 rt in
          match class_tracker_id with
          | Some i => (Ret cls, track i cls rt)
          | None => (Ret cls, rt)
          end
      end
  end.

(** The loop of [_make_skeleton_enum] over [members]. Each round takes one
    address for the member; the class keeps its own address. *)
Fixpoint attach_members (members : list (string * value)) (enum_class : pyclass)
    (rt : runtime) : result pyclass * runtime :=
  match members with
  | [] => (Ret enum_class, rt)
  | (member_name, member_value) :: rest =>
      let enum_member := next_addr rt in
      let rt := allocate 1 rt in
      match member_attach enum_class member_name member_value enum_member with
      | Raise e => (Raise e, rt)
      | Ret attached =>
          attach_members rest (at_address (cls_addr enum_class) attached) rt
      end
  end.

(** [_make_skeleton_enum]. The metaclass is the type of the first base, or
    [EnumMeta] when there is no base; the class it creates is allocated at the
    next free address. *)
Definition _make_skeleton_enum (bases : list pyclass) (name : string) (qualname : value)
    (members : list (string * value)) (module : value) (class_tracker_id : option string)
    (extra : value) (rt : runtime) : result pyclass * runtime :=
  match class_tracker_id ≫= λ i, _DYNAMIC_CLASS_TRACKER_BY_ID rt !! i with
  | Some registered => (Ret registered, rt)
  | None =>
      let metacls := match bases with b :: _ => cls_type b | [] => addr_EnumMeta end in
      match enum_new metacls name bases module qualname with
      | Raise e => (Raise e, rt)
      | Ret enum_class =>
          let enum_class := at_address (next_addr rt) enum_class in
          let rt := allocate 1 rt in
          match attach_members members enum_class rt with
          | (Raise e, rt) => (Raise e, rt)
          | (Ret enum_class, rt) =>
              match class_tracker_id with
              | Some i => (Ret enum_class, track i enum_class rt)
              | None => (Ret enum_class, rt)
              end
          end
      end
  end.

End Skeleton.

(** The arguments a class reducer records next to its constructor. *)
Inductive class_args :=
| Args_None
| Args_skeleton_class (type_constructor : ref) (name : string) (bases : list pyclass)
    (type_kwargs : pydict) (class_tracker_id : option string) (extra : value).

(** [_dynamic_class_reduce]; the registries are read, and returned as the
    call leaves them. *)
Definition _dynamic_class_reduce (obj : pyclass) (rt : runtime)
    : (constructor * class_args) * runtime :=
  if bool_decide (cls_addr obj = addr_NoneType) then ((builtin_type, Args_None), rt)
  else
    let type_constructor := cls_type obj in
    let name := cls___name__ obj in
    let bases := cls___bases__ obj in
    let dict_items := map_to_list (_extract_class_dict obj) in
    let module := cls___module__ obj in
    let qualname := cls___qualname__ obj in
    let class_tracker_id := _DYNAMIC_CLASS_TRACKER_BY_CLASS rt !! cls_addr obj in
    let type_kwargs : pydict := <["__qualname__" := qualname]> (<["__module__" := module]> ∅) in
    ((ctor__make_skeleton_class,
      Args_skeleton_class type_constructor name bases type_kwargs class_tracker_id VNone),
     rt).

(** The load side of the reduce protocol for a class: the recorded constructor
    is called on the recorded arguments in the destination process. *)
Definition reconstruct_class (type_call : ref → string → list pyclass → pydict → result pyclass)
    (rv : constructor * class_args) (rt : runtime) : option (result pyclass * runtime) :=
  match rv with
  | (ctor__make_skeleton_class,
     Args_skeleton_class type_constructor name bases type_kwargs class_tracker_id extra) =>
      Some (_make_skeleton_class type_call type_constructor name bases type_kwargs
              class_tracker_id extra rt)
  | _ => None
  end.

(** ** Functions and [_function_setstate] *)

(** A function object: its [__dict__], its [__globals__] and the cells of its
    [__closure__], each given by address, since all three are shared mutable
    objects. *)
Record pyfunction := PyFunction {
  fn_addr : ref;
  fn___dict__ : ref;
  fn___globals__ : ref;
  fn___closure__ : list ref
}.

Arguments PyFunction (fn_addr fn___dict__ fn___globals__)%_positive
  fn___closure__%_list.

(** The mutable objects a function refers to: dictionaries and cells. *)
Record store := Store {
  dicts : gmap ref pydict;
  cells : gmap ref cell
}.

(** [d.update(other)]: the entries of [other] win. *)
Definition dict_update (d : ref) (other : pydict) (s : store) : store :=
  Store (alter (λ old, other ∪ old) d (dicts s)) (cells s).

(** [d.clear()]. *)
Definition dict_clear (d : ref) (s : store) : store :=
  Store (alter (λ _, ∅) d (dicts s)) (cells s).

Definition _function_setstate (obj : pyfunction) (state : pydict * pydict) (s : store)
    : store :=
  let '(state, slotstate) := state in
  let s := dict_update (fn___dict__ obj) state s in
  let obj_globals := fn___globals__ obj in
  let s := dict_clear obj_globals s in
  dict_update obj_globals slotstate s.

(** What a function reads from the free variable at position [i] of its
    closure: the contents of that cell, nothing when the cell is empty. *)
Definition read_free_variable (obj : pyfunction) (i : nat) (s : store) : option value :=
  a ← fn___closure__ obj !! i; c ← cells s !! a; c.


(** ** Sample objects *)

(** Two classes of an interactive session: [B] derives from [A], inherits [f],
    overrides [g] and adds [h]. *)
Definition class_A : pyclass :=
  PyClass 100 addr_type "A" (VStr "__main__") (VStr "A") []
    (<["f" := VObj 201]> (<["g" := VObj 202]> ∅)).

Definition class_B : pyclass :=
  PyClass 101 addr_type "B" (VStr "__main__") (VStr "B") [class_A]
    (<["f" := VObj 201]> (<["g" := VObj 203]> (<["h" := VObj 204]> ∅))).


(** The modules of a session: the entry module, an entry left at [None], a
    module whose attribute lookup fails with an error of its own, and three
    ordinary file-backed modules; [pkg] and [pkg2] both expose the same
    function object under the name [f]. *)
Definition mod_main : pymodule := PyModule 10 "__main__" NoFileAttr.
Definition mod_broken : pymodule := PyModule 11 "broken" (FilePath "/site/broken.py").
Definition mod_other : pymodule := PyModule 12 "other" (FilePath "/site/other.py").
Definition mod_pkg : pymodule := PyModule 13 "pkg" (FilePath "/site/pkg/__init__.py").
Definition mod_pkg2 : pymodule := PyModule 14 "pkg2" (FilePath "/site/pkg2.py").

Definition sample_modules : sys_modules :=
  [("__main__", Some mod_main); ("gone", None); ("broken", Some mod_broken);
   ("other", Some mod_other); ("pkg", Some mod_pkg); ("pkg2", Some mod_pkg2)].

Definition sample_getattribute (module : pymodule) (name : string) : result (value * value) :=
  if bool_decide (mod___name__ module = "broken") then Raise TypeError
  else if bool_decide (name = "f") then
    if bool_decide (mod___name__ module = "other") then Ret (VObj 301, VObj (mod_addr module))
    else Ret (VObj 300, VObj (mod_addr module))
  else Raise AttributeError.

(** The function object at address 300: once without a [__module__]
    attribute, once declaring [pkg], once declaring the entry module. *)
Definition func_no_module : pyobj := PyObj (VObj 300) false None (Some "f").
Definition func_in_pkg : pyobj := PyObj (VObj 300) false (Some "pkg") (Some "f").
Definition func_in_main : pyobj := PyObj (VObj 300) false (Some "__main__") (Some "f").
Definition obj_unnamed : pyobj := PyObj (VObj 302) false (Some "pkg") None.
Definition obj_unowned : pyobj := PyObj (VObj 303) false None (Some "f").

(** What the three interpreter calls answer in the sample session. Its classes
    come from class statements with one base, so their metaclass is [type];
    for such a base the type constructor returns the class with the given name
    and base, takes ['__qualname__'] out of the namespace as the qualified
    name, reads the module from ['__module__'] and adds ['__doc__'] when it
    is missing. A base with another metaclass conflicts with [Meta] and a
    qualified name that is no string is refused, both with [TypeError]. The
    session creates no class without a base or with several bases, and no
    enum; for such arguments the sample stands for no behaviour of the
    interpreter and answers [TypeError] as well. *)
Definition session_type_call (Meta : ref) (name : string) (bases : list pyclass)
    (clsdict : pydict) : result pyclass :=
  match bases with
  | [base] =>
      if bool_decide (cls_type base = addr_type) then
        let namespace :=
          <["__doc__" := default VNone (clsdict !! "__doc__")]>
            (<["__module__" := default (VStr "joblib.externals.cloudpickle.cloudpickle")
                                       (clsdict !! "__module__")]>
               (delete "__qualname__" clsdict)) in
        match clsdict !! "__qualname__" with
        | Some (VStr qualname) =>
            Ret (PyClass 1 Meta name (default VNone (namespace !! "__module__"))
                         (VStr qualname) bases namespace)
        | None =>
            Ret (PyClass 1 Meta name (default VNone (namespace !! "__module__"))
                         (VStr name) bases namespace)
        | Some _ => Raise TypeError
        end
      else Raise TypeError
  | _ => Raise TypeError
  end.

Definition session_enum_new (metacls : ref) (name : string) (bases : list pyclass)
    (module qualname : value) : result pyclass :=
  Raise TypeError.

Definition session_member_attach (enum_class : pyclass) (member_name : string)
    (member_value : value) (enum_member : ref) : result pyclass :=
  Raise TypeError.

(** A destination process in which the class with tracking id ["id-B"] has
    been reconstructed before. *)
Definition runtime_with_B : runtime := track "id-B" class_B initial_runtime.

(** A function shell as the restore procedure receives it: empty [__dict__],
    empty [__globals__], and one closure cell, still empty. The captured state
    carries one instance attribute and, in the slot state, the global the body
    reads and the captured closure (the tuple at address 404, whose one cell
    holds 5). *)
Definition shell_function : pyfunction := PyFunction 400 401 402 [403%positive].

Definition shell_store : store :=
  Store (<[401%positive := ∅]> (<[402%positive := ∅]> ∅)) (<[403%positive := None]> ∅).

Definition captured_state : pydict * pydict :=
  (<["hits" := VInt 0]> ∅,
   <["__closure__" := VObj 404]> (<["step" := VInt 1]> ∅)).

(** A unit that reads the global [print], writes the global [total] and holds
    a nested unit that deletes the global [tmp]; [x] is in [co_names] but no
    global instruction names it. Opcode 100 is [LOAD_CONST], 83 is
    [RETURN_VALUE]. *)
Definition inner_code : pycode :=
  PyCode [Instr DELETE_GLOBAL 0; Instr 83 0] ["tmp"] [ConstValue VNone].

Definition outer_code : pycode :=
  PyCode [Instr LOAD_GLOBAL 0; Instr 100 1; Instr STORE_GLOBAL 2; Instr 83 0]
         ["print"; "x"; "total"] [ConstValue (VInt 1); ConstCode inner_code].

(** ** [_find_imported_submodules] *)

Section Submodules.

(** [getattr(module, name)] on a loaded module: the attribute, or the
    exception the lookup raises ([AttributeError] when there is none). *)
Variable py_getattr : pymodule → string → result value.

(** [hasattr(module, name)]: false on [AttributeError], any other exception
    goes through. *)
Definition py_hasattr (module : pymodule) (name : string) : result bool :=
  match py_getattr module name with
  | Ret _ => Ret true
  | Raise AttributeError => Ret false
  | Raise e => Raise e
  end.

(** [hasattr(module, name) and getattr(module, name) is not None]. *)
Definition exposes (module : pymodule) (name : string) : result bool :=
  has ← py_hasattr module name;
  if has : bool then
    v ← py_getattr module name;
    Ret (negb (py_is v VNone))
  else Ret false.

(** The loop over [top_level_dependencies] that sets [is_dependency]. *)
Fixpoint is_dependency (module_name : string) (top_level_dependencies : list pymodule)
    : bool :=
  match top_level_dependencies with
  | [] => false
  | dependency :: rest =>
      if bool_decide (module_name = mod___name__ dependency) then true
      else if String.prefix (mod___name__ dependency +:+ ".") module_name then true
      else is_dependency module_name rest
  end.

(** The loop over [list(sys.modules.items())] for one name: the module that
    is appended before the [break], if any. *)
Fixpoint find_submodule (top_level_dependencies : list pymodule) (name : string)
    (mods : sys_modules) : result (option pymodule) :=
  match mods with
  | [] => Ret None
  | (module_name, module) :: rest =>
      if bool_decide (module_name = "__main__") then
        find_submodule top_level_dependencies name rest
      else match module with
      | None => find_submodule top_level_dependencies name rest
      | Some module =>
          if negb (is_dependency module_name top_level_dependencies) then
            find_submodule top_level_dependencies name rest
          else
            found ← exposes module name;
            if found : bool then Ret (Some module)
            else find_submodule top_level_dependencies name rest
      end
  end.

(** The loop over [code.co_names]. *)
Fixpoint submodules_of_names (top_level_dependencies : list pymodule)
    (mods : sys_modules) (names : list string) (submodules : list pymodule)
    : result (list pymodule) :=
  match names with
  | [] => Ret submodules
  | name :: rest =>
      found ← find_submodule top_level_dependencies name mods;
      match found with
      | Some module =>
          submodules_of_names top_level_dependencies mods rest (submodules ++ [module])
      | None => submodules_of_names top_level_dependencies mods rest submodules
      end
  end.

(** The loop over [code.co_consts]; [find] is the recursive call. *)
Fixpoint submodules_of_consts (find : pycode → result (list pymodule))
    (consts : list pyconst) (submodules : list pymodule) : result (list pymodule) :=
  match consts with
  | [] => Ret submodules
  | ConstCode const :: rest =>
      nested ← find const;
      submodules_of_consts find rest (submodules ++ nested)
  | ConstValue _ :: rest => submodules_of_consts find rest submodules
  end.

Fixpoint _find_imported_submodules (top_level_dependencies : list pymodule)
    (mods : sys_modules) (code : pycode) {struct code} : result (list pymodule) :=
  match code with
  | PyCode instrs names consts =>
      submodules ← submodules_of_names top_level_dependencies mods names [];
      submodules_of_consts (_find_imported_submodules top_level_dependencies mods)
                           consts submodules
  end.

(** A module that [_find_imported_submodules] may return: it is loaded under
    a name other than ['__main__'] that is the name of a declared dependency
    or lies below one. *)
Definition loaded_dependency (top_level_dependencies : list pymodule)
    (mods : sys_modules) (module : pymodule) : Prop :=
  ∃ module_name dependency,
    (module_name, Some module) ∈ mods ∧
    module_name ≠ "__main__" ∧
    dependency ∈ top_level_dependencies ∧
    (module_name = mod___name__ dependency ∨
     String.prefix (mod___name__ dependency +:+ ".") module_name = true).

End Submodules.

(** ** [_class_reduce] *)

Definition addr_EllipsisType : ref := 5%positive.
Definition addr_NotImplementedType : ref := 6%positive.

(** What [_class_reduce] returns: a constructor with its arguments, the pair
    [(type, (Ellipsis,))], the pair [(type, (NotImplemented,))], a bare name
    (the class is pickled as a global of that name), or [NotImplemented]. *)
Inductive class_reduce_value :=
| CR_reduce (rv : constructor * class_args)
| CR_type_Ellipsis
| CR_type_NotImplemented
| CR_global (name : string)
| CR_NotImplemented.

Section ClassReduce.

Variable _getattribute : pymodule → string → result (value * value).

(** A class whose [__module__] is an object other than a string, an integer
    or [None]: what the resolver answers then is decided by that object's
    [__eq__] and [__hash__], which are not part of this module (with an
    unhashable object [sys.modules.get] raises [TypeError]). *)
Variable module_object_decision : ref → result bool.

(** [_should_pickle_by_reference(obj)] for a class. The resolver reads the
    class's [__module__] and [__name__]; an integer is not ['__main__'] and is
    no key of [sys.modules], so the owner is not found and the answer is
    [False]. *)
Definition class_should_pickle_by_reference (by_value : gset string) (mods : sys_modules)
    (obj : pyclass) : result bool :=
  match cls___module__ obj with
  | VStr module =>
      _should_pickle_by_reference _getattribute by_value mods
        (PyObj (VObj (cls_addr obj)) true (Some module) (Some (cls___name__ obj))) None
  | VNone =>
      _should_pickle_by_reference _getattribute by_value mods
        (PyObj (VObj (cls_addr obj)) true None (Some (cls___name__ obj))) None
  | VInt _ => Ret false
  | VObj module => module_object_decision module
  end.

(** [_class_reduce]; [_BUILTIN_TYPE_NAMES] is the table built at import time
    from the [types] module, keyed by the class. *)
Definition _class_reduce (by_value : gset string) (mods : sys_modules)
    (_BUILTIN_TYPE_NAMES : gmap ref string) (obj : pyclass) (rt : runtime)
    : result class_reduce_value :=
  if bool_decide (cls_addr obj = addr_NoneType) then
    Ret (CR_reduce (builtin_type, Args_None))
  else if bool_decide (cls_addr obj = addr_EllipsisType) then Ret CR_type_Ellipsis
  else if bool_decide (cls_addr obj = addr_NotImplementedType) then Ret CR_type_NotImplemented
  else if bool_decide (is_Some (_BUILTIN_TYPE_NAMES !! cls_addr obj)) then
    Ret (CR_global (cls___name__ obj))
  else
    by_reference ← class_should_pickle_by_reference by_value mods obj;
    if negb by_reference then Ret (CR_reduce (_dynamic_class_reduce obj rt).1)
    else Ret CR_NotImplemented.

End ClassReduce.

(** ** Invariants of the registries *)

(** The two registries are inverse to each other, and every tracked class
    lives below the next free address. *)
Definition tracker_inv (rt : runtime) : Prop :=
  (∀ i cls, _DYNAMIC_CLASS_TRACKER_BY_ID rt !! i = Some cls →
     _DYNAMIC_CLASS_TRACKER_BY_CLASS rt !! cls_addr cls = Some i) ∧
  (∀ a i, _DYNAMIC_CLASS_TRACKER_BY_CLASS rt !! a = Some i →
     ∃ cls, _DYNAMIC_CLASS_TRACKER_BY_ID rt !! i = Some cls ∧ cls_addr cls = a) ∧
  (∀ a i, _DYNAMIC_CLASS_TRACKER_BY_CLASS rt !! a = Some i → (a < next_addr rt)%positive).

(** The class [cls] with its [__dict__] replaced. *)
Definition with_dict (cls : pyclass) (d : pydict) : pyclass :=
  PyClass (cls_addr cls) (cls_type cls) (cls___name__ cls) (cls___module__ cls)
          (cls___qualname__ cls) (cls___bases__ cls) d.

(** A session in which the attribute lookup on the module [other] is
    interrupted from the keyboard; the other modules behave as in
    [sample_getattribute]. *)
Definition interrupted_getattribute (module : pymodule) (name : string)
    : result (value * value) :=
  if bool_decide (mod___name__ module = "other") then Raise KeyboardInterrupt
  else sample_getattribute module name.

(** Attribute lookup in a session that has imported [pkg] and [pkg.sub]: the
    package exposes its submodule under the name [sub], the entry module
    exposes everything, no other module exposes anything. *)
Definition mod_pkg_sub : pymodule := PyModule 15 "pkg.sub" (FilePath "/site/pkg/sub.py").

Definition sample_py_getattr (module : pymodule) (name : string) : result value :=
  if bool_decide (mod___name__ module = "__main__") then Ret (VObj 500)
  else if bool_decide (mod___name__ module = "pkg" ∧ name = "sub") then
    Ret (VObj (mod_addr mod_pkg_sub))
  else Raise AttributeError.

Definition modules_with_sub : sys_modules :=
  [("__main__", Some mod_main); ("other", Some mod_other); ("pkg", Some mod_pkg);
   ("pkg.sub", Some mod_pkg_sub)].

(** The unit of [def func(): x = pkg.sub.X]: it names [pkg], [sub] and [X]. *)
Definition code_using_sub : pycode :=
  PyCode [Instr LOAD_GLOBAL 0; Instr 106 1; Instr 106 2; Instr 83 0]
         ["pkg"; "sub"; "X"] [ConstValue VNone].

(** A class of the file-backed module [pkg], at address 110. *)
Definition class_in_pkg : pyclass :=
  PyClass 110 addr_type "K" (VStr "pkg") (VStr "K") [] ∅.
(** Two units as CPython 3.11 compiles them. [def f(): print(1)] has the one
    name [print]; its [LOAD_GLOBAL] carries the argument 1, the index 0 with the
    flag set. [def g(): foo().bar] has the names [foo] and [bar]; its
    [LOAD_GLOBAL] carries the argument 1 as well, and [bar] is the operand of
    [LOAD_ATTR] (106) only. The other opcodes are [RESUME] (151), [PRECALL]
    (166), [CALL] (171), [POP_TOP] (1), [LOAD_CONST] (100) and [RETURN_VALUE]
    (83). *)
Definition code_print_3_11 : pycode :=
  PyCode [Instr 151 0; Instr LOAD_GLOBAL 1; Instr 100 1; Instr 166 1; Instr 171 1;
          Instr 1 0; Instr 100 0; Instr 83 0]
         ["print"] [ConstValue VNone; ConstValue (VInt 1)].

Definition code_foo_bar_3_11 : pycode :=
  PyCode [Instr 151 0; Instr LOAD_GLOBAL 1; Instr 166 0; Instr 171 0; Instr 106 1;
          Instr 1 0; Instr 100 0; Instr 83 0]
         ["foo"; "bar"] [ConstValue VNone].

(** * Properties *)

(** ** [_extract_class_dict] *)

Lemma drop_inherited_lookup (clsdict r inherited : pydict) i x name :
  inherited !! i = None →
  (∀ k, r !! k = match clsdict !! k with
                 | Some v => if bool_decide (inherited !! k = Some v) then None else Some v
                 | None => None
                 end) →
  drop_inherited i x r !! name =
    match clsdict !! name with
    | Some v => if bool_decide (<[i:=x]> inherited !! name = Some v) then None else Some v
    | None => None
    end.
Proof.
  intros Hi IH. unfold drop_inherited, py_is.
  destruct (decide (i = name)) as [->|Hne].
  - rewrite lookup_insert_eq. pose proof (IH name) as Hn. rewrite Hi in Hn.
    destruct (clsdict !! name) as [v|] eqn:Hc.
    + rewrite bool_decide_eq_false_2 in Hn by discriminate. rewrite Hn.
      destruct (decide (v = x)) as [->|Hvx].
      * rewrite !bool_decide_eq_true_2 by reflexivity. apply lookup_delete_eq.
      * rewrite !bool_decide_eq_false_2 by congruence. exact Hn.
    + rewrite Hn. exact Hn.
  - rewrite (lookup_insert_ne inherited i name x Hne).
    destruct (r !! i) as [v'|]; [|apply IH].
    destruct (bool_decide (v' = x)); [|apply IH].
    rewrite lookup_delete_ne by exact Hne. apply IH.
Qed.

Lemma fold_drop_inherited_lookup (clsdict inherited : pydict) name :
  map_fold drop_inherited clsdict inherited !! name =
    match clsdict !! name with
    | Some v => if bool_decide (inherited !! name = Some v) then None else Some v
    | None => None
    end.
Proof.
  revert name.
  refine (map_fold_weak_ind
            (λ (r : pydict) (m : pydict), ∀ name,
               r !! name = match clsdict !! name with
                           | Some v => if bool_decide (m !! name = Some v) then None else Some v
                           | None => None
                           end)
            drop_inherited clsdict _ _ inherited).
  - intros name. rewrite lookup_empty. destruct (clsdict !! name); [|reflexivity].
    rewrite bool_decide_eq_false_2 by discriminate. reflexivity.
  - intros i x m r Hi IH name. by apply drop_inherited_lookup.
Qed.

(** C10. For a class with exactly one base, [_extract_class_dict] returns the
    class's own dict without the entries whose value is identical to the
    base's entry of the same name; for a class with no base or with several,
    it returns the class's dict unchanged. *)
Theorem extract_class_dict_spec (cls : pyclass) :
  (∀ base, cls___bases__ cls = [base] →
     ∀ name, _extract_class_dict cls !! name =
       match cls___dict__ cls !! name with
       | Some v =>
           if bool_decide (cls___dict__ base !! name = Some v) then None else Some v
       | None => None
       end) ∧
  (length (cls___bases__ cls) ≠ 1 → _extract_class_dict cls = cls___dict__ cls).
Proof.
  split.
  - intros base Hb name. unfold _extract_class_dict. rewrite Hb.
    apply fold_drop_inherited_lookup.
  - intros Hlen. unfold _extract_class_dict.
    destruct (cls___bases__ cls) as [|b [|b' bs]]; simpl in Hlen; congruence.
Qed.

Lemma extract_class_dict_spec_witness :
  _extract_class_dict class_B !! "f" = None ∧
  _extract_class_dict class_B !! "g" = Some (VObj 203) ∧
  _extract_class_dict class_B !! "h" = Some (VObj 204) ∧
  _extract_class_dict class_A = cls___dict__ class_A.
Proof.
  destruct (extract_class_dict_spec class_B) as [HB _].
  destruct (extract_class_dict_spec class_A) as [_ HA].
  split; [|split; [|split]].
  - rewrite (HB class_A eq_refl "f"). reflexivity.
  - rewrite (HB class_A eq_refl "g"). reflexivity.
  - rewrite (HB class_A eq_refl "h"). reflexivity.
  - apply HA. simpl. lia.
Defined.

(** ** [_cell_reduce] *)

Lemma cell_reduce_contents (v : value) :
  v ≠ VNone → _cell_reduce (Some v) = Ret v.
Proof.
  intros Hv. unfold _cell_reduce, py_is. simpl.
  rewrite bool_decide_eq_false_2 by exact Hv. reflexivity.
Qed.

(** C4. The cell reducer is to encode an empty cell as the sentinel and a cell
    with contents by its contents. The code reads [cell_contents] first and
    tests the value against [None]: on an empty cell the read raises
    [ValueError], and a cell that holds [None] is encoded as the sentinel. *)
Theorem cell_reduce_empty_and_None :
  _cell_reduce None = Raise ValueError ∧
  _cell_reduce (Some VNone) = Ret _empty_cell_value ∧
  _empty_cell_value ≠ VNone.
Proof. split; [reflexivity | split; [reflexivity | discriminate]]. Qed.

(** ** [_file_reduce] *)





(** ** The reference resolver *)

Section ResolverFacts.

Variable _getattribute : pymodule → string → result (value * value).


Lemma whichmodule_declared (mods : sys_modules) (obj : pyobj) (name module_name : string) :
  obj___module__ obj = Some module_name →
  _whichmodule _getattribute mods obj name = Ret (Some module_name).
Proof.
  intros Hm. unfold _whichmodule. rewrite Hm.
  destruct (obj_is_type obj && bool_decide (Some module_name = Some "__main__")); reflexivity.
Qed.

End ResolverFacts.





(** C7. [_should_pickle_by_reference] returns [False] when no name can be
    derived, when [_whichmodule] finds no owning module, and when the owning
    module is ['__main__']; in particular an object that declares ['__main__']
    as its module is never pickled by reference. *)
Theorem should_pickle_by_reference_value
    (_getattribute : pymodule → string → result (value * value))
    (by_value : gset string) (mods : sys_modules) (obj : pyobj) (name : option string) :
  derived_name obj name = None ∨
  (∃ n, derived_name obj name = Some n ∧
        (_whichmodule _getattribute mods obj n = Ret None ∨
         _whichmodule _getattribute mods obj n = Ret (Some "__main__"))) ∨
  obj___module__ obj = Some "__main__" →
  _should_pickle_by_reference _getattribute by_value mods obj name = Ret false.
Proof.
  unfold _should_pickle_by_reference, derived_name.
  intros [Hname|[(n & Hname & Hwhich)|Hmain]].
  - by rewrite Hname.
  - rewrite Hname. destruct Hwhich as [-> | ->]; reflexivity.
  - destruct (match name with Some _ => name | None => obj___name__ obj end) as [n|];
      [|reflexivity].
    by rewrite (whichmodule_declared _getattribute mods obj n "__main__" Hmain).
Qed.

Lemma should_pickle_by_reference_value_witness :
  _should_pickle_by_reference sample_getattribute ∅ sample_modules obj_unnamed None = Ret false ∧
  _should_pickle_by_reference sample_getattribute ∅ sample_modules obj_unowned None = Ret false ∧
  _should_pickle_by_reference sample_getattribute ∅ sample_modules func_in_main (Some "f") = Ret false.
Proof.
  split; [|split].
  - apply should_pickle_by_reference_value. left. reflexivity.
  - apply should_pickle_by_reference_value. right. left.
    exists "f". split; [reflexivity|]. left. reflexivity.
  - apply should_pickle_by_reference_value. right. right. reflexivity.
Defined.

(** C5. [register_pickle_by_value(m)] is to put [m] in the by-value set, so
    that attributes of [m] are no longer pickled by reference. Its body is
    [pass]: after the call the set is still empty and a function of the
    file-backed module [pkg] is still pickled by reference. *)
Theorem register_pickle_by_value_ignored :
  register_pickle_by_value mod_pkg _PICKLE_BY_VALUE_MODULES = ∅ ∧
  _should_pickle_by_reference sample_getattribute
    (register_pickle_by_value mod_pkg _PICKLE_BY_VALUE_MODULES)
    sample_modules func_in_pkg None = Ret true.
Proof. split; reflexivity. Qed.

(** ** The identity tracker *)

Section SkeletonFacts.

Variable type_call : ref → string → list pyclass → pydict → result pyclass.
Variable enum_new : ref → string → list pyclass → value → value → result pyclass.
Variable member_attach : pyclass → string → value → ref → result pyclass.

Lemma track_lookup_id (i : string) (cls : pyclass) (rt : runtime) :
  _DYNAMIC_CLASS_TRACKER_BY_ID (track i cls rt) !! i = Some cls.
Proof. unfold track. simpl. apply lookup_insert_eq. Qed.

Lemma make_skeleton_class_registered (rt : runtime) (i : string) (registered : pyclass)
    type_constructor name bases type_kwargs extra :
  _DYNAMIC_CLASS_TRACKER_BY_ID rt !! i = Some registered →
  _make_skeleton_class type_call type_constructor name bases type_kwargs (Some i) extra rt
    = (Ret registered, rt).
Proof. intros H. unfold _make_skeleton_class. simpl. by rewrite H. Qed.

Lemma make_skeleton_enum_registered (rt : runtime) (i : string) (registered : pyclass)
    bases name qualname members module extra :
  _DYNAMIC_CLASS_TRACKER_BY_ID rt !! i = Some registered →
  _make_skeleton_enum enum_new member_attach bases name qualname members module (Some i) extra rt
    = (Ret registered, rt).
Proof. intros H. unfold _make_skeleton_enum. simpl. by rewrite H. Qed.

Lemma make_skeleton_class_registers (rt rt' : runtime) (i : string) (cls : pyclass)
    type_constructor name bases type_kwargs extra :
  _make_skeleton_class type_call type_constructor name bases type_kwargs (Some i) extra rt
    = (Ret cls, rt') →
  _DYNAMIC_CLASS_TRACKER_BY_ID rt' !! i = Some cls.
Proof.
  unfold _make_skeleton_class. simpl.
  destruct (_DYNAMIC_CLASS_TRACKER_BY_ID rt !! i) eqn:H; [by intros [= <- <-]|].
  destruct (type_call _ name bases _) as [built|e]; [|discriminate].
  intros [= <- <-]. apply track_lookup_id.
Qed.

Lemma make_skeleton_enum_registers (rt rt' : runtime) (i : string) (cls : pyclass)
    bases name qualname members module extra :
  _make_skeleton_enum enum_new member_attach bases name qualname members module (Some i) extra rt
    = (Ret cls, rt') →
  _DYNAMIC_CLASS_TRACKER_BY_ID rt' !! i = Some cls.
Proof.
  unfold _make_skeleton_enum. simpl.
  destruct (_DYNAMIC_CLASS_TRACKER_BY_ID rt !! i) eqn:H; [by intros [= <- <-]|].
  destruct (enum_new _ name bases module qualname) as [built|e]; [|discriminate].
  destruct (attach_members _ _ _ _) as [[enum_class|e] rt1]; [|discriminate].
  intros [= <- <-]. apply track_lookup_id.
Qed.

End SkeletonFacts.

(** C2. A reconstruction call whose tracking id is already in the
    destination's registry returns the registered object and leaves the
    process as it was: nothing is allocated, no class is built, no member is
    attached. Hence, when a call with some id has returned a class, every
    later call with that id, whatever its other arguments, returns that very
    object. This holds whatever the interpreter's class creation does. *)
Theorem skeleton_dedup
    (type_call : ref → string → list pyclass → pydict → result pyclass)
    (enum_new : ref → string → list pyclass → value → value → result pyclass)
    (member_attach : pyclass → string → value → ref → result pyclass)
    (rt : runtime) (i : string) :
  (∀ registered, _DYNAMIC_CLASS_TRACKER_BY_ID rt !! i = Some registered →
     (∀ type_constructor name bases type_kwargs extra,
        _make_skeleton_class type_call type_constructor name bases type_kwargs (Some i) extra rt
          = (Ret registered, rt)) ∧
     (∀ bases name qualname members module extra,
        _make_skeleton_enum enum_new member_attach bases name qualname members module
          (Some i) extra rt
          = (Ret registered, rt))) ∧
  (∀ tc1 n1 b1 k1 e1 first rt1,
     _make_skeleton_class type_call tc1 n1 b1 k1 (Some i) e1 rt = (Ret first, rt1) →
     ∀ tc2 n2 b2 k2 e2,
       _make_skeleton_class type_call tc2 n2 b2 k2 (Some i) e2 rt1 = (Ret first, rt1)) ∧
  (∀ b1 n1 q1 ms1 m1 e1 first rt1,
     _make_skeleton_enum enum_new member_attach b1 n1 q1 ms1 m1 (Some i) e1 rt = (Ret first, rt1) →
     ∀ b2 n2 q2 ms2 m2 e2,
       _make_skeleton_enum enum_new member_attach b2 n2 q2 ms2 m2 (Some i) e2 rt1
         = (Ret first, rt1)).
Proof.
  split; [|split].
  - intros registered H. split; intros.
    + by apply make_skeleton_class_registered.
    + by apply make_skeleton_enum_registered.
  - intros tc1 n1 b1 k1 e1 first rt1 Hfirst. intros.
    apply make_skeleton_class_registered.
    by apply (make_skeleton_class_registers type_call rt rt1 i first tc1 n1 b1 k1 e1).
  - intros b1 n1 q1 ms1 m1 e1 first rt1 Hfirst. intros.
    apply make_skeleton_enum_registered.
    by apply (make_skeleton_enum_registers enum_new member_attach rt rt1 i first b1 n1 q1 ms1 m1 e1).
Qed.

Lemma skeleton_dedup_witness :
  _make_skeleton_class session_type_call addr_type "B" [class_A] ∅ (Some "id-B") VNone
      runtime_with_B
    = (Ret class_B, runtime_with_B) ∧
  _make_skeleton_enum session_enum_new session_member_attach [] "Color" (VStr "Color")
      [("RED", VInt 1)] (VStr "__main__") (Some "id-B") VNone runtime_with_B
    = (Ret class_B, runtime_with_B) ∧
  (∃ first rt1,
     _make_skeleton_class session_type_call addr_type "B" [class_A]
         (<["__qualname__" := VStr "B"]> (<["__module__" := VStr "__main__"]> ∅))
         (Some "id-B") VNone initial_runtime
       = (Ret first, rt1) ∧
     _make_skeleton_class session_type_call addr_type "Other" [] ∅ (Some "id-B") VNone rt1
       = (Ret first, rt1)) ∧
  _make_skeleton_enum session_enum_new session_member_attach [class_A] "B" (VStr "B") []
      (VStr "__main__") (Some "id-B") VNone runtime_with_B
    = (Ret class_B, runtime_with_B).
Proof.
  destruct (skeleton_dedup session_type_call session_enum_new session_member_attach
              runtime_with_B "id-B") as (Hreg & _ & Henum).
  destruct (skeleton_dedup session_type_call session_enum_new session_member_attach
              initial_runtime "id-B") as (_ & Hclass & _).
  destruct (Hreg class_B) as [Hc He]; [reflexivity|].
  split; [apply Hc|]. split; [apply He|]. split.
  - eexists _, _. split; [reflexivity|].
    apply (Hclass addr_type "B" [class_A]
             (<["__qualname__" := VStr "B"]> (<["__module__" := VStr "__main__"]> ∅)) VNone).
    reflexivity.
  - apply (Henum [] "Color" (VStr "Color") [("RED", VInt 1)] (VStr "__main__") VNone).
    reflexivity.
Defined.

(** C1. The first serialization of a dynamic class is to allocate a tracking
    id and to record the pair in the registry. [_dynamic_class_reduce] only
    reads the registry: for the class [B], never serialized before, the
    encoding carries no tracking id and the registries stay empty, also at a
    second serialization; and two reconstructions of that encoding in one
    destination process give two classes at different addresses. *)
Theorem dynamic_class_reduce_allocates_no_id :
  _dynamic_class_reduce class_B initial_runtime
    = ((ctor__make_skeleton_class,
        Args_skeleton_class addr_type "B" [class_A]
          (<["__qualname__" := VStr "B"]> (<["__module__" := VStr "__main__"]> ∅))
          None VNone),
       initial_runtime) ∧
  _dynamic_class_reduce class_B (_dynamic_class_reduce class_B initial_runtime).2
    = _dynamic_class_reduce class_B initial_runtime ∧
  ∃ first rt1 second rt2,
    reconstruct_class session_type_call
        (_dynamic_class_reduce class_B initial_runtime).1 initial_runtime
      = Some (Ret first, rt1) ∧
    reconstruct_class session_type_call
        (_dynamic_class_reduce class_B initial_runtime).1 rt1
      = Some (Ret second, rt2) ∧
    cls_addr first ≠ cls_addr second ∧
    _DYNAMIC_CLASS_TRACKER_BY_ID rt2 = ∅.
Proof.
  split; [reflexivity|]. split; [reflexivity|].
  eexists _, _, _, _. split; [reflexivity|]. split; [reflexivity|].
  split; [vm_compute; discriminate | reflexivity].
Qed.

(** ** [_function_setstate] *)

(** C3. The restore procedure is to apply the instance attributes and then to
    clear and repopulate the globals and the closure cells. The code updates
    [__dict__] and clears and refills [__globals__] with the whole slot state,
    and never writes a cell: whatever the captured state, every cell is as it
    was, so the empty cell of a shell stays empty and the captured closure
    ends up as a global named ['__closure__']. *)
Theorem function_setstate_leaves_cells :
  (∀ obj state s, cells (_function_setstate obj state s) = cells s) ∧
  cells (_function_setstate shell_function captured_state shell_store) !! 403%positive
    = Some None ∧
  read_free_variable shell_function 0
    (_function_setstate shell_function captured_state shell_store) = None ∧
  dicts (_function_setstate shell_function captured_state shell_store) !! 401%positive
    = Some captured_state.1 ∧
  dicts (_function_setstate shell_function captured_state shell_store) !! 402%positive
    = Some captured_state.2.
Proof.
  split; [|repeat split; reflexivity].
  intros obj [state slotstate] s. reflexivity.
Qed.

(** ** The global-binding extractor *)

Lemma pycode_nested_ind (P : pycode → Prop) :
  (∀ instrs names consts,
     Forall (λ k, match k with ConstCode c => P c | ConstValue _ => True end) consts →
     P (PyCode instrs names consts)) →
  ∀ co, P co.
Proof.
  intros H. fix IH 1. intros [instrs names consts]. apply H.
  induction consts as [|k consts IHc]; constructor.
  - destruct k as [c|v]; [apply IH | exact I].
  - exact IHc.
Qed.

Lemma global_opname_iff (i : instr) :
  instr_opname i ∈ ["LOAD_GLOBAL"; "STORE_GLOBAL"; "DELETE_GLOBAL"] ↔
  instr_opcode i ∈ GLOBAL_OPS.
Proof.
  unfold instr_opname, GLOBAL_OPS.
  rewrite !elem_of_cons, !elem_of_nil.
  repeat case_bool_decide; split; intros Hin; auto 6;
    exfalso; decompose [or] Hin; (discriminate || congruence || contradiction).
Qed.

Lemma global_ops_perm (op : nat) :
  op ∈ [LOAD_GLOBAL; STORE_GLOBAL; DELETE_GLOBAL] ↔ op ∈ GLOBAL_OPS.
Proof. unfold GLOBAL_OPS. rewrite !elem_of_cons, !elem_of_nil. tauto. Qed.

Lemma walk_global_ops_elem (co : pycode) (i : instr) :
  i ∈ _walk_global_ops co ↔ i ∈ co_instrs co ∧ instr_opcode i ∈ GLOBAL_OPS.
Proof. unfold _walk_global_ops. rewrite list_elem_of_filter. tauto. Qed.

Lemma collect_global_names_spec (names : list string) (instrs : list instr)
    (acc : gset string) :
  (∀ i, i ∈ instrs → instr_opcode i ∈ GLOBAL_OPS → instr_arg i < length names) →
  ∃ s, collect_global_names names instrs acc = Ret s ∧
    ∀ n, n ∈ s ↔
      n ∈ acc ∨ ∃ i, i ∈ instrs ∧ instr_opcode i ∈ GLOBAL_OPS ∧ names !! instr_arg i = Some n.
Proof.
  revert acc. induction instrs as [|i rest IH]; intros acc Hwf.
  - exists acc. split; [reflexivity|]. intros n. split; [auto|].
    intros [H|(i & Hi & _)]; [exact H | by apply elem_of_nil in Hi].
  - simpl. case_bool_decide as Hop.
    + apply global_opname_iff in Hop.
      assert (Hlt : instr_arg i < length names) by (apply Hwf; [left | exact Hop]).
      apply lookup_lt_is_Some_2 in Hlt as [n0 Hn0].
      unfold names_getitem. rewrite Hn0. simpl.
      destruct (IH (acc ∪ {[n0]})) as (s & Hs & Hspec).
      { intros j Hj. apply Hwf. by right. }
      exists s. split; [exact Hs|]. intros n. rewrite Hspec, elem_of_union, elem_of_singleton.
      split.
      * intros [[H| ->]|(j & Hj & Hopj & Hnj)]; [by left | |].
        -- right. exists i. split; [left|]. by split.
        -- right. exists j. split; [by right|]. by split.
      * intros [H|(j & Hj & Hopj & Hnj)]; [by left; left|].
        apply elem_of_cons in Hj as [-> | Hj].
        -- left. right. congruence.
        -- right. by exists j.
    + destruct (IH acc) as (s & Hs & Hspec).
      { intros j Hj. apply Hwf. by right. }
      exists s. split; [exact Hs|]. intros n. rewrite Hspec. split.
      * intros [H|(j & Hj & Hopj & Hnj)]; [by left|].
        right. exists j. split; [by right|]. by split.
      * intros [H|(j & Hj & Hopj & Hnj)]; [by left|].
        apply elem_of_cons in Hj as [-> | Hj].
        -- exfalso. apply Hop. by apply global_opname_iff.
        -- right. by exists j.
Qed.

Lemma names_global_unfold (co : pycode) (n : string) :
  names_global Before_3_11 co n ↔
    (∃ i, i ∈ _walk_global_ops co ∧ co_names co !! instr_arg i = Some n) ∨
    (∃ c, ConstCode c ∈ co_consts co ∧ names_global Before_3_11 c n).
Proof.
  split.
  - intros H. destruct H as [co i n Hi Hop Hn | co c n Hc Hn].
    + left. exists i. split; [|exact Hn].
      apply walk_global_ops_elem. split; [exact Hi | by apply global_ops_perm].
    + right. by exists c.
  - intros [(i & Hi & Hn)|(c & Hc & Hn)].
    + apply walk_global_ops_elem in Hi as [Hi Hop].
      apply (names_global_here Before_3_11 co i n Hi); [by apply global_ops_perm | exact Hn].
    + by apply (names_global_nested Before_3_11 co c n).
Qed.

Lemma cache_lookup_store (co k : pycode) (v : gset string) (cache : extract_cache) :
  cache_lookup (cache_store co v cache) k
    = if decide (co = k) then Some v else cache_lookup cache k.
Proof.
  unfold cache_store. simpl. destruct (decide (co = k)) as [->|Hne]; [reflexivity|].
  induction cache as [|[k' v'] cache IH]; [reflexivity|].
  rewrite filter_cons. simpl. destruct (decide (k' ≠ co)) as [Hk|Hk].
  - simpl. destruct (decide (k' = k)); [reflexivity | exact IH].
  - apply dec_stable in Hk. subst k'. destruct (decide (co = k)); [contradiction | exact IH].
Qed.

Lemma extract_cached (co : pycode) (cache : extract_cache) (s : gset string) :
  cache_lookup cache co = Some s → _extract_code_globals co cache = (Ret s, cache).
Proof. intros H. destruct co. simpl. by rewrite H. Qed.

Lemma extract_nested_spec (consts : list pyconst) :
  Forall (λ k, match k with ConstCode c => extract_ok Before_3_11 c | ConstValue _ => True end) consts →
  ∀ acc cache, cache_sound Before_3_11 cache →
    (∀ c, ConstCode c ∈ consts → code_wf c) →
    ∃ s cache',
      extract_nested _extract_code_globals consts acc cache = (Ret s, cache') ∧
      (∀ n, n ∈ s ↔ n ∈ acc ∨ ∃ c, ConstCode c ∈ consts ∧ names_global Before_3_11 c n) ∧
      cache_sound Before_3_11 cache'.
Proof.
  induction 1 as [|k consts Hk _ IH]; intros acc cache Hsound Hwf.
  - exists acc, cache. split; [reflexivity|]. split; [|exact Hsound].
    intros n. split; [auto|]. intros [Hn|(c & Hc & _)]; [exact Hn | by apply elem_of_nil in Hc].
  - destruct k as [c|v]; simpl.
    + destruct (Hk cache Hsound) as (sc & cache1 & Hrun & Hsc & Hsound1 & _).
      { apply Hwf. left. }
      rewrite Hrun.
      destruct (IH (acc ∪ sc) cache1 Hsound1) as (s & cache' & Hrest & Hs & Hsound').
      { intros c' Hc'. apply Hwf. by right. }
      exists s, cache'. split; [exact Hrest|]. split; [|exact Hsound'].
      intros n. rewrite Hs, elem_of_union, Hsc. split.
      * intros [[Hn|Hn]|(c' & Hc' & Hn)]; [by left | |].
        -- right. exists c. split; [left | exact Hn].
        -- right. exists c'. split; [by right | exact Hn].
      * intros [Hn|(c' & Hc' & Hn)]; [by left; left|].
        apply elem_of_cons in Hc' as [Heq|Hc'].
        -- injection Heq as ->. left. by right.
        -- right. by exists c'.
    + destruct (IH acc cache Hsound) as (s & cache' & Hrest & Hs & Hsound').
      { intros c' Hc'. apply Hwf. by right. }
      exists s, cache'. split; [exact Hrest|]. split; [|exact Hsound'].
      intros n. rewrite Hs. split.
      * intros [Hn|(c' & Hc' & Hn)]; [by left|].
        right. exists c'. split; [by right | exact Hn].
      * intros [Hn|(c' & Hc' & Hn)]; [by left|].
        apply elem_of_cons in Hc' as [Heq|Hc']; [discriminate Heq|].
        right. by exists c'.
Qed.

Lemma extract_code_globals_ok (co : pycode) : extract_ok Before_3_11 co.
Proof.
  induction co as [instrs names consts IH] using pycode_nested_ind.
  intros cache Hsound Hwf. set (co := PyCode instrs names consts) in *.
  destruct (cache_lookup cache co) as [hit|] eqn:Hhit.
  - exists hit, cache. split; [by apply extract_cached|].
    split; [by apply Hsound|]. by split.
  - inversion Hwf as [? Hargs Hnested]; subst.
    destruct (collect_global_names_spec names (_walk_global_ops co) ∅) as (own & Hown & Hownspec).
    { intros i Hi Hop. apply walk_global_ops_elem in Hi as [Hi _]. by apply Hargs. }
    destruct (extract_nested_spec consts IH own cache Hsound Hnested)
      as (s & cache1 & Hrun & Hs & Hsound1).
    exists s, (cache_store co s cache1).
    assert (Hspec : ∀ n, n ∈ s ↔ names_global Before_3_11 co n).
    { intros n. rewrite Hs, Hownspec, names_global_unfold. split.
      - intros [[Hn|(i & Hi & _ & Hn)]|Hn]; [by apply elem_of_empty in Hn | |by right].
        left. by exists i.
      - intros [(i & Hi & Hn)|Hn]; [|by right].
        left. right. exists i. split; [exact Hi|]. split; [|exact Hn].
        by apply walk_global_ops_elem in Hi as [_ Hop]. }
    split; [|split; [exact Hspec|split]].
    + change (_extract_code_globals co cache) with
        (match cache_lookup cache co with
         | Some out_names => (Ret out_names, cache)
         | None =>
             match collect_global_names names (_walk_global_ops co) ∅ with
             | Raise e => (Raise e, cache)
             | Ret out_names =>
                 match extract_nested _extract_code_globals consts out_names cache with
                 | (Ret out_names, cache) => (Ret out_names, cache_store co out_names cache)
                 | (Raise e, cache) => (Raise e, cache)
                 end
             end
         end).
      by rewrite Hhit, Hown, Hrun.
    + intros k v. rewrite cache_lookup_store. destruct (decide (co = k)) as [<-|_].
      * intros [= <-]. exact Hspec.
      * apply Hsound1.
    + rewrite cache_lookup_store. by rewrite decide_True.
Qed.

Lemma code_wfb_wf (co : pycode) : code_wfb co = true → code_wf co.
Proof.
  induction co as [instrs names consts IH] using pycode_nested_ind.
  simpl. intros [Hargs Hnested]%andb_true_iff. constructor.
  - intros i Hi Hop. rewrite forallb_forall in Hargs.
    eapply bool_decide_eq_true_1, Hargs, list_elem_of_In, walk_global_ops_elem. by split.
  - intros c Hc. rewrite forallb_forall in Hnested. rewrite Forall_forall in IH.
    apply (IH _ Hc), (Hnested (ConstCode c)). by apply list_elem_of_In.
Qed.

Lemma cache_sound_empty : cache_sound Before_3_11 [].
Proof. intros co out_names H. discriminate H. Qed.

(** X23. On an interpreter before CPython 3.11, on a unit whose global
    instructions index [co_names], and from a memo table filled by earlier
    calls only (the empty table at import time is one),
    [_extract_code_globals] returns exactly the names that are operands of the
    global read, write and delete instructions of the unit and of the units
    nested among its constants; the table it leaves is again sound and holds
    the result under the unit, and a second call on the same unit returns the
    same set and leaves the table as it is. *)
Theorem extract_code_globals_exact (co : pycode) (cache : extract_cache) :
  cache_sound Before_3_11 cache →
  code_wf co →
  ∃ s cache',
    _extract_code_globals co cache = (Ret s, cache') ∧
    (∀ n, n ∈ s ↔ names_global Before_3_11 co n) ∧
    cache_sound Before_3_11 cache' ∧
    cache_lookup cache' co = Some s ∧
    _extract_code_globals co cache' = (Ret s, cache').
Proof.
  intros Hsound Hwf.
  destruct (extract_code_globals_ok co cache Hsound Hwf) as (s & cache' & Hrun & Hs & Hsound' & Hhit).
  exists s, cache'. split; [exact Hrun|]. split; [exact Hs|]. split; [exact Hsound'|].
  split; [exact Hhit|]. by apply extract_cached.
Qed.

Lemma outer_code_wf : code_wf outer_code.
Proof. apply code_wfb_wf. reflexivity. Qed.

Lemma extract_code_globals_exact_witness :
  ∃ s cache',
    _extract_code_globals outer_code [] = (Ret s, cache') ∧
    (∀ n, n ∈ s ↔ names_global Before_3_11 outer_code n) ∧
    cache_sound Before_3_11 cache' ∧
    cache_lookup cache' outer_code = Some s ∧
    _extract_code_globals outer_code cache' = (Ret s, cache').
Proof.
  apply (extract_code_globals_exact outer_code []).
  - exact cache_sound_empty.
  - exact outer_code_wf.
Defined.

Example extract_code_globals_outer :
  (_extract_code_globals outer_code []).1 = Ret ({["print"; "total"; "tmp"]} : gset string).
Proof. vm_compute. reflexivity. Qed.

Ltac decide_global_op H :=
  unfold GLOBAL_OPS, LOAD_GLOBAL, STORE_GLOBAL, DELETE_GLOBAL in H;
  rewrite !elem_of_cons, elem_of_nil in H;
  decompose [or] H; try discriminate; try contradiction.

Lemma names_global_3_11_print (n : string) :
  names_global From_3_11 code_print_3_11 n ↔ n = "print".
Proof.
  split.
  - intros H. inversion H as [? i ? Hi Hop Hn | ? c ? Hc _]; subst; simpl in *.
    + rewrite !elem_of_cons, elem_of_nil in Hi.
      decompose [or] Hi; try contradiction; subst i; simpl in Hop;
        try (decide_global_op Hop; fail).
      vm_compute in Hn. by injection Hn as <-.
    + rewrite !elem_of_cons, elem_of_nil in Hc. decompose [or] Hc; try discriminate; contradiction.
  - intros ->. apply (names_global_here From_3_11 code_print_3_11 (Instr LOAD_GLOBAL 1)).
    + simpl. right. left.
    + left.
    + reflexivity.
Qed.

Lemma names_global_3_11_foo_bar (n : string) :
  names_global From_3_11 code_foo_bar_3_11 n ↔ n = "foo".
Proof.
  split.
  - intros H. inversion H as [? i ? Hi Hop Hn | ? c ? Hc _]; subst; simpl in *.
    + rewrite !elem_of_cons, elem_of_nil in Hi.
      decompose [or] Hi; try contradiction; subst i; simpl in Hop;
        try (decide_global_op Hop; fail).
      vm_compute in Hn. by injection Hn as <-.
    + rewrite !elem_of_cons, elem_of_nil in Hc. decompose [or] Hc; try discriminate; contradiction.
  - intros ->. apply (names_global_here From_3_11 code_foo_bar_3_11 (Instr LOAD_GLOBAL 1)).
    + simpl. right. left.
    + left.
    + reflexivity.
Qed.

(** C6. The extractor is to return exactly the names that are operands of the
    global instructions. It reads the name as [co.co_names[instr.arg]], the
    raw argument used as the index. From CPython 3.11 on the argument of
    [LOAD_GLOBAL] is twice the index plus a flag, so the name read is not the
    operand: on the unit of [def f(): print(1)], whose one global is [print],
    the call raises [IndexError]; on the unit of [def g(): foo().bar], whose
    one global is [foo], it returns the set that holds [bar] alone, and
    memoizes it. *)
Theorem extract_code_globals_misreads_load_global :
  (∀ n, names_global From_3_11 code_print_3_11 n ↔ n = "print") ∧
  _extract_code_globals code_print_3_11 [] = (Raise IndexError, []) ∧
  (∀ n, names_global From_3_11 code_foo_bar_3_11 n ↔ n = "foo") ∧
  _extract_code_globals code_foo_bar_3_11 []
    = (Ret {["bar"]}, [(code_foo_bar_3_11, {["bar"]})]).
Proof.
  split; [exact names_global_3_11_print|]. split; [reflexivity|].
  split; [exact names_global_3_11_foo_bar|]. vm_compute. reflexivity.
Qed.

(** * Further properties *)

(** ** [_extract_class_dict], continued *)

Lemma extract_class_dict_lookup (cls : pyclass) (name : string) :
  _extract_class_dict cls !! name = None ∨
  _extract_class_dict cls !! name = cls___dict__ cls !! name.
Proof.
  unfold _extract_class_dict.
  destruct (cls___bases__ cls) as [|base [|base' bases]]; [by right | | by right].
  rewrite fold_drop_inherited_lookup.
  destruct (cls___dict__ cls !! name) as [v|]; [|by left].
  destruct (bool_decide _); [by left | by right].
Qed.

(** X1. The returned dict is a part of the class's dict: the function drops
    entries, it neither adds an entry nor changes a value. *)
Theorem extract_class_dict_subseteq (cls : pyclass) :
  _extract_class_dict cls ⊆ cls___dict__ cls.
Proof.
  apply map_subseteq_spec. intros name v Hv.
  destruct (extract_class_dict_lookup cls name) as [H|H]; congruence.
Qed.

(** X2. Extracting again from the extracted dict changes nothing. *)
Theorem extract_class_dict_idempotent (cls : pyclass) :
  _extract_class_dict (with_dict cls (_extract_class_dict cls)) = _extract_class_dict cls.
Proof.
  unfold _extract_class_dict at 1 3. simpl.
  destruct (cls___bases__ cls) as [|base [|base' bases]] eqn:Hb;
    unfold _extract_class_dict; rewrite Hb; try reflexivity.
  apply map_eq. intros name. rewrite !fold_drop_inherited_lookup.
  destruct (cls___dict__ cls !! name) as [v|]; [|reflexivity].
  destruct (bool_decide (cls___dict__ base !! name = Some v)) eqn:Hd; [reflexivity|].
  by rewrite Hd.
Qed.

(** ** [_cell_reduce], continued *)

(** X3. The reducer raises exactly on the empty cell; it yields the sentinel
    exactly for a cell that holds [None] or the sentinel object itself, so the
    encoding does not tell these two cells apart; every other cell is encoded
    by its contents. *)
Theorem cell_reduce_cases (obj : cell) :
  (_cell_reduce obj = Raise ValueError ↔ obj = None) ∧
  (_cell_reduce obj = Ret _empty_cell_value ↔
     obj = Some VNone ∨ obj = Some _empty_cell_value) ∧
  (∀ v, obj = Some v → v ≠ VNone → _cell_reduce obj = Ret v).
Proof.
  unfold _cell_reduce, py_is, _empty_cell_value. destruct obj as [v|]; simpl.
  - case_bool_decide as Hv; [subst v|]; repeat split; intuition congruence.
  - repeat split; intuition congruence.
Qed.

Lemma cell_reduce_cases_witness :
  _cell_reduce (Some (VInt 5)) = Ret (VInt 5) ∧
  _cell_reduce (Some _empty_cell_value) = Ret _empty_cell_value ∧
  _cell_reduce None = Raise ValueError.
Proof.
  destruct (cell_reduce_cases (Some (VInt 5))) as (_ & _ & Hcontents).
  destruct (cell_reduce_cases (Some _empty_cell_value)) as (_ & Hsentinel & _).
  destruct (cell_reduce_cases None) as (Hempty & _ & _).
  split; [|split].
  - apply (Hcontents (VInt 5)); [reflexivity | discriminate].
  - apply Hsentinel. right. reflexivity.
  - apply Hempty. reflexivity.
Defined.

(** ** [_file_reduce], continued *)

Lemma string_drop_all (n : nat) (s : string) :
  (String.length s ≤ n)%nat → string_drop n s = "".
Proof.
  revert s. induction n as [|n IH]; intros [|c s] Hlen; simpl in *;
    try reflexivity; try lia. apply IH. lia.
Qed.

Lemma string_drop_length (n : nat) (s : string) :
  String.length (string_drop n s) = String.length s - n.
Proof.
  revert s. induction n as [|n IH]; intros [|c s]; simpl; try reflexivity; try lia.
  apply IH.
Qed.

(** X4. A successful reduction reads the stream to its end and does not move the
    position back: the reducer returns the rest of the content, whose length
    is the content's length less the position, and a second reduction of the
    same stream finds nothing left and returns the empty string. *)
Theorem file_reduce_consumes (obj : pyfile) :
  file_closed obj = false → file_mode obj = "r" →
  ∃ data obj',
    _file_reduce obj = (Ret (io_StringIO, data), obj') ∧
    String.length data = String.length (file_content obj) - file_pos obj ∧
    file_content obj' = file_content obj ∧
    _file_reduce obj' = (Ret (io_StringIO, ""), obj').
Proof.
  intros Hopen Hmode. unfold _file_reduce. rewrite Hopen.
  rewrite bool_decide_eq_true_2 by exact Hmode. simpl.
  eexists _, _. split; [reflexivity|]. split; [apply string_drop_length|].
  split; [reflexivity|]. simpl. rewrite Hopen.
  rewrite bool_decide_eq_true_2 by exact Hmode. unfold file_read. simpl.
  rewrite string_drop_all by lia.
  rewrite (Nat.max_l (Nat.max _ _) (String.length (file_content obj))) by lia.
  reflexivity.
Qed.

Lemma file_reduce_consumes_witness :
  ∃ data obj',
    _file_reduce (PyFile false "r" "abcdef" 2) = (Ret (io_StringIO, data), obj') ∧
    String.length data = 6 - 2 ∧
    file_content obj' = "abcdef" ∧
    _file_reduce obj' = (Ret (io_StringIO, ""), obj').
Proof. apply (file_reduce_consumes (PyFile false "r" "abcdef" 2)); reflexivity. Defined.

(** ** [_function_setstate], continued *)

(** X5. The two halves of the restore differ: the instance attributes are merged
    into [__dict__] (the captured ones win, the others stay), whereas
    [__globals__] is replaced by the slot state, whatever it held before; no
    other dictionary is touched. *)
Theorem function_setstate_dicts (obj : pyfunction) (state slotstate : pydict) (s : store) :
  fn___dict__ obj ≠ fn___globals__ obj →
  let s' := _function_setstate obj (state, slotstate) s in
  dicts s' !! fn___dict__ obj = (λ old, state ∪ old) <$> dicts s !! fn___dict__ obj ∧
  dicts s' !! fn___globals__ obj = (λ _, slotstate) <$> dicts s !! fn___globals__ obj ∧
  (∀ a, a ≠ fn___dict__ obj → a ≠ fn___globals__ obj → dicts s' !! a = dicts s !! a).
Proof.
  intros Hne. simpl. split; [|split].
  - rewrite !lookup_alter_ne by congruence. by rewrite lookup_alter_eq.
  - rewrite !lookup_alter_eq, lookup_alter_ne by done.
    destruct (dicts s !! fn___globals__ obj); simpl; [|reflexivity].
    by rewrite (right_id_L ∅ (∪)).
  - intros a Hd Hg. by rewrite !lookup_alter_ne by congruence.
Qed.

Lemma function_setstate_dicts_witness :
  let s' := _function_setstate shell_function
              (<["hits" := VInt 0]> ∅, <["step" := VInt 1]> ∅)
              (Store (<[401%positive := <["hits" := VInt 7]> (<["doc" := VStr "d"]> ∅)]>
                        (<[402%positive := <["stale" := VInt 9]> ∅]> ∅)) ∅) in
  dicts s' !! 401%positive = Some (<["hits" := VInt 0]> (<["doc" := VStr "d"]> ∅)) ∧
  dicts s' !! 402%positive = Some (<["step" := VInt 1]> ∅).
Proof.
  pose proof (function_setstate_dicts shell_function
                (<["hits" := VInt 0]> ∅) (<["step" := VInt 1]> ∅)
                (Store (<[401%positive := <["hits" := VInt 7]> (<["doc" := VStr "d"]> ∅)]>
                          (<[402%positive := <["stale" := VInt 9]> ∅]> ∅)) ∅)) as H.
  destruct H as (Hd & Hg & _); [simpl; lia|].
  split; [refine (eq_trans Hd _) | refine (eq_trans Hg _)]; reflexivity.
Defined.

(** X6. Restoring the same state twice is the same as restoring it once, even
    when [__dict__] and [__globals__] are one dictionary. *)
Theorem function_setstate_idempotent (obj : pyfunction) (state : pydict * pydict) (s : store) :
  _function_setstate obj state (_function_setstate obj state s) = _function_setstate obj state s.
Proof.
  destruct state as [state slotstate]. unfold _function_setstate, dict_update, dict_clear.
  simpl. f_equal. apply map_eq. intros a.
  destruct (decide (fn___globals__ obj = a)) as [<-|Hg].
  - rewrite !lookup_alter_eq.
    destruct (decide (fn___dict__ obj = fn___globals__ obj)) as [->|Hd].
    + rewrite !lookup_alter_eq. by destruct (dicts s !! fn___globals__ obj).
    + rewrite !lookup_alter_ne by done. rewrite !lookup_alter_eq.
      rewrite !lookup_alter_ne by done. by destruct (dicts s !! fn___globals__ obj).
  - rewrite !(lookup_alter_ne _ _ (fn___globals__ obj) a) by done.
    destruct (decide (fn___dict__ obj = a)) as [<-|Hd].
    + rewrite !lookup_alter_eq. rewrite !lookup_alter_ne by done.
      rewrite !lookup_alter_eq.
      destruct (dicts s !! fn___dict__ obj) as [old|]; simpl; [|reflexivity].
      by rewrite (assoc_L (∪)), (idemp_L (∪)).
    + rewrite !lookup_alter_ne by done. reflexivity.
Qed.

(** ** The identity tracker, continued *)

Lemma copy_loop_id (type_kwargs : pydict) :
  map_fold (λ k v (clsdict : pydict), <[k := v]> clsdict) ∅ type_kwargs = type_kwargs.
Proof.
  refine (map_fold_weak_ind (λ (r m : pydict), r = m) _ ∅ _ _ type_kwargs);
    [reflexivity|].
  intros i x m r _ ->. reflexivity.
Qed.

Section SkeletonMore.

Variable type_call : ref → string → list pyclass → pydict → result pyclass.

Lemma make_skeleton_class_fresh (rt : runtime) (i : string)
    type_constructor name bases type_kwargs extra :
  _DYNAMIC_CLASS_TRACKER_BY_ID rt !! i = None →
  _make_skeleton_class type_call type_constructor name bases type_kwargs (Some i) extra rt
    = match type_call (next_addr rt) name bases type_kwargs with
      | Raise e => (Raise e, allocate 1 rt)
      | Ret built =>
          (Ret (at_address (next_addr rt + 1) built),
           track i (at_address (next_addr rt + 1) built) (allocate 1 (allocate 1 rt)))
      end.
Proof.
  intros Hi. unfold _make_skeleton_class. simpl. rewrite Hi, copy_loop_id. reflexivity.
Qed.

Lemma make_skeleton_class_untracked (rt : runtime)
    type_constructor name bases type_kwargs extra :
  _make_skeleton_class type_call type_constructor name bases type_kwargs None extra rt
    = match type_call (next_addr rt) name bases type_kwargs with
      | Raise e => (Raise e, allocate 1 rt)
      | Ret built =>
          (Ret (at_address (next_addr rt + 1) built), allocate 1 (allocate 1 rt))
      end.
Proof. unfold _make_skeleton_class. simpl. rewrite copy_loop_id. reflexivity. Qed.

Lemma tracker_inv_allocate (n : positive) (rt : runtime) :
  tracker_inv rt → tracker_inv (allocate n rt).
Proof.
  intros (Hid & Hcls & Hlt). unfold tracker_inv, allocate. simpl.
  split; [exact Hid|]. split; [exact Hcls|].
  intros a i Ha. specialize (Hlt a i Ha). lia.
Qed.

Lemma tracker_inv_track (i : string) (cls : pyclass) (rt : runtime) :
  tracker_inv rt →
  _DYNAMIC_CLASS_TRACKER_BY_ID rt !! i = None →
  (next_addr rt ≤ cls_addr cls)%positive →
  tracker_inv (track i cls (allocate (cls_addr cls + 1 - next_addr rt) rt)).
Proof.
  intros (Hid & Hcls & Hlt) Hi Hfresh. unfold tracker_inv, track, allocate. simpl.
  assert (Hnew : _DYNAMIC_CLASS_TRACKER_BY_CLASS rt !! cls_addr cls = None).
  { destruct (_DYNAMIC_CLASS_TRACKER_BY_CLASS rt !! cls_addr cls) as [j|] eqn:Ha; [|reflexivity].
    specialize (Hlt _ j Ha). lia. }
  split; [|split].
  - intros j c Hj. destruct (decide (i = j)) as [<-|Hij].
    + rewrite lookup_insert_eq in Hj. injection Hj as <-. apply lookup_insert_eq.
    + rewrite lookup_insert_ne in Hj by exact Hij.
      pose proof (Hid j c Hj) as Hc.
      rewrite lookup_insert_ne; [exact Hc|]. intros Heq.
      specialize (Hlt _ _ Hc). rewrite <- Heq in Hlt. lia.
  - intros a j Ha. destruct (decide (cls_addr cls = a)) as [<-|Hne].
    + rewrite lookup_insert_eq in Ha. injection Ha as <-.
      eexists. split; [apply lookup_insert_eq | reflexivity].
    + rewrite lookup_insert_ne in Ha by exact Hne.
      destruct (Hcls a j Ha) as (c & Hj & Haddr).
      exists c. split; [|exact Haddr].
      rewrite lookup_insert_ne; [exact Hj|]. congruence.
  - intros a j Ha. destruct (decide (cls_addr cls = a)) as [<-|Hne].
    + lia.
    + rewrite lookup_insert_ne in Ha by exact Hne. specialize (Hlt a j Ha). lia.
Qed.

End SkeletonMore.

(** X7. [_make_skeleton_class] keeps the two registries inverse to each other:
    after any call, an id leads to a class whose registered id is that id, a
    tracked class is the class its id leads to, and every tracked class lies
    below the next free address. The registries at import time satisfy this. *)
Theorem make_skeleton_class_keeps_inverse
    (type_call : ref → string → list pyclass → pydict → result pyclass) (rt : runtime)
    type_constructor name bases type_kwargs class_tracker_id extra :
  tracker_inv rt →
  tracker_inv
    (_make_skeleton_class type_call type_constructor name bases type_kwargs
       class_tracker_id extra rt).2.
Proof.
  intros Hinv.
  destruct class_tracker_id as [i|].
  2:{ rewrite make_skeleton_class_untracked.
      destruct (type_call _ name bases type_kwargs); simpl;
        repeat apply tracker_inv_allocate; exact Hinv. }
  destruct (_DYNAMIC_CLASS_TRACKER_BY_ID rt !! i) as [registered|] eqn:Hi.
  { by rewrite (make_skeleton_class_registered type_call rt i registered) by exact Hi. }
  rewrite make_skeleton_class_fresh by exact Hi.
  destruct (type_call _ name bases type_kwargs) as [built|e]; simpl;
    [|by apply tracker_inv_allocate].
  pose proof (tracker_inv_track i (at_address (next_addr rt + 1) built) rt Hinv Hi) as H.
  simpl in H.
  replace (next_addr rt + 1 + 1 - next_addr rt)%positive with 2%positive in H by lia.
  unfold track, allocate in *. simpl in *.
  replace (next_addr rt + 1 + 1)%positive with (next_addr rt + 2)%positive by lia.
  apply H. lia.
Qed.

Lemma tracker_inv_initial : tracker_inv initial_runtime.
Proof.
  split; [|split]; intros ? ? H; simpl in H; rewrite lookup_empty in H; discriminate H.
Qed.

Lemma make_skeleton_class_keeps_inverse_witness :
  tracker_inv
    (_make_skeleton_class session_type_call addr_type "B" [class_A] ∅ (Some "id-B") VNone
       initial_runtime).2.
Proof. apply make_skeleton_class_keeps_inverse. exact tracker_inv_initial. Defined.

(** X8. A class that [_make_skeleton_class] has returned for a tracking id
    that was not registered before is serialized with that id from then on,
    and reconstructing this encoding in the same process returns the class
    itself and changes nothing. This holds for whatever class the interpreter
    has created. *)
Theorem tracked_class_round_trip
    (type_call : ref → string → list pyclass → pydict → result pyclass)
    (rt rt1 : runtime) (i : string) (cls : pyclass)
    type_constructor name bases type_kwargs extra :
  _DYNAMIC_CLASS_TRACKER_BY_ID rt !! i = None →
  (addr_NoneType < next_addr rt)%positive →
  _make_skeleton_class type_call type_constructor name bases type_kwargs (Some i) extra rt
    = (Ret cls, rt1) →
  _dynamic_class_reduce cls rt1
    = ((ctor__make_skeleton_class,
        Args_skeleton_class (cls_type cls) (cls___name__ cls) (cls___bases__ cls)
          (<["__qualname__" := cls___qualname__ cls]> (<["__module__" := cls___module__ cls]> ∅))
          (Some i) VNone), rt1) ∧
  reconstruct_class type_call (_dynamic_class_reduce cls rt1).1 rt1 = Some (Ret cls, rt1).
Proof.
  intros Hi Hlt. rewrite make_skeleton_class_fresh by exact Hi.
  destruct (type_call _ name bases type_kwargs) as [built|e]; [|discriminate].
  intros [= <- <-]. unfold _dynamic_class_reduce. simpl.
  rewrite bool_decide_eq_false_2 by (unfold addr_NoneType in *; lia).
  rewrite lookup_insert_eq. split; [reflexivity|]. simpl.
  unfold _make_skeleton_class. simpl. by rewrite lookup_insert_eq.
Qed.

Lemma tracked_class_round_trip_witness :
  ∃ cls rt1,
    _make_skeleton_class session_type_call addr_type "B" [class_A]
        (<["__qualname__" := VStr "B"]> (<["__module__" := VStr "__main__"]> ∅))
        (Some "id-B") VNone initial_runtime
      = (Ret cls, rt1) ∧
    _dynamic_class_reduce cls rt1
      = ((ctor__make_skeleton_class,
          Args_skeleton_class (cls_type cls) (cls___name__ cls) (cls___bases__ cls)
            (<["__qualname__" := cls___qualname__ cls]>
               (<["__module__" := cls___module__ cls]> ∅))
            (Some "id-B") VNone), rt1) ∧
    reconstruct_class session_type_call (_dynamic_class_reduce cls rt1).1 rt1
      = Some (Ret cls, rt1).
Proof.
  eexists _, _. split; [reflexivity|].
  apply (tracked_class_round_trip session_type_call initial_runtime _ "id-B" _
           addr_type "B" [class_A]
           (<["__qualname__" := VStr "B"]> (<["__module__" := VStr "__main__"]> ∅)) VNone).
  - reflexivity.
  - reflexivity.
  - reflexivity.
Defined.

(** X9. Without a tracking id nothing is recorded and nothing is shared: a
    call leaves both registries as they were, whether the class creation
    returns or raises, and when two calls both return a class, the two classes
    lie at different addresses. *)
Theorem untracked_skeletons_distinct
    (type_call : ref → string → list pyclass → pydict → result pyclass) (rt : runtime) :
  (∀ type_constructor name bases type_kwargs extra,
     let rt' := (_make_skeleton_class type_call type_constructor name bases type_kwargs
                   None extra rt).2 in
     _DYNAMIC_CLASS_TRACKER_BY_ID rt' = _DYNAMIC_CLASS_TRACKER_BY_ID rt ∧
     _DYNAMIC_CLASS_TRACKER_BY_CLASS rt' = _DYNAMIC_CLASS_TRACKER_BY_CLASS rt) ∧
  (∀ tc1 n1 b1 k1 e1 tc2 n2 b2 k2 e2 first rt1 second rt2,
     _make_skeleton_class type_call tc1 n1 b1 k1 None e1 rt = (Ret first, rt1) →
     _make_skeleton_class type_call tc2 n2 b2 k2 None e2 rt1 = (Ret second, rt2) →
     cls_addr first ≠ cls_addr second).
Proof.
  split.
  - intros. subst rt'. rewrite make_skeleton_class_untracked.
    by destruct (type_call _ name bases type_kwargs).
  - intros tc1 n1 b1 k1 e1 tc2 n2 b2 k2 e2 first rt1 second rt2.
    rewrite !make_skeleton_class_untracked.
    destruct (type_call _ n1 b1 k1) as [built1|]; [|discriminate]. intros [= <- <-].
    destruct (type_call _ n2 b2 k2) as [built2|]; [|discriminate]. intros [= <- _].
    simpl. lia.
Qed.

Lemma untracked_skeletons_distinct_witness :
  ∃ first rt1 second rt2,
    _make_skeleton_class session_type_call addr_type "B" [class_A] ∅ None VNone
        initial_runtime = (Ret first, rt1) ∧
    _make_skeleton_class session_type_call addr_type "B" [class_A] ∅ None VNone rt1
      = (Ret second, rt2) ∧
    cls_addr first ≠ cls_addr second.
Proof.
  destruct (untracked_skeletons_distinct session_type_call initial_runtime) as [_ H].
  eexists _, _, _, _. split; [reflexivity|]. split; [reflexivity|].
  eapply (H addr_type "B" [class_A] ∅ VNone addr_type "B" [class_A] ∅ VNone);
    reflexivity.
Defined.



(** ** The reference resolver, continued *)

Section ResolverMore.

Variable _getattribute : pymodule → string → result (value * value).

Lemma spbr_true_iff (by_value : gset string) (mods : sys_modules) (obj : pyobj)
    (name : option string) :
  _should_pickle_by_reference _getattribute by_value mods obj name = Ret true ↔
  ∃ n module_name module,
    derived_name obj name = Some n ∧
    _whichmodule _getattribute mods obj n = Ret (Some module_name) ∧
    module_name ≠ "__main__" ∧
    sys_modules_get mods module_name = Some module ∧
    (module_name ∉ by_value) ∧
    mod___file__ module ≠ FileNone.
Proof.
  unfold _should_pickle_by_reference, derived_name.
  destruct (match name with Some _ => name | None => obj___name__ obj end) as [n|].
  2:{ split; [discriminate | intros (? & ? & ? & H & _); discriminate H]. }
  destruct (_whichmodule _getattribute mods obj n) as [[m|]|e] eqn:Hw; simpl;
    [| split; [discriminate | intros (? & ? & ? & [= <-] & H & _); congruence]
     | split; [discriminate | intros (? & ? & ? & [= <-] & H & _); congruence]].
  split.
  - intros H. exists n, m.
    destruct (decide (m = "__main__")) as [Hmain|Hmain];
      [rewrite bool_decide_eq_true_2 in H by exact Hmain; discriminate H|].
    rewrite bool_decide_eq_false_2 in H by exact Hmain.
    destruct (sys_modules_get mods m) as [module|]; [|discriminate H].
    destruct (decide (m ∈ by_value)) as [Hby|Hby];
      [rewrite bool_decide_eq_true_2 in H by exact Hby; discriminate H|].
    exists module. repeat split; try done.
    rewrite bool_decide_eq_false_2 in H by exact Hby.
    intros Hfile. rewrite Hfile in H. discriminate H.
  - intros (n' & m' & module & [= <-] & Hw' & Hmain & Hget & Hby & Hfile).
    rewrite Hw in Hw'. injection Hw' as <-.
    rewrite bool_decide_eq_false_2 by exact Hmain. rewrite Hget.
    rewrite bool_decide_eq_false_2 by exact Hby.
    by destruct (mod___file__ module).
Qed.

Lemma spbr_raise_indep (by_value by_value' : gset string) (mods : sys_modules)
    (obj : pyobj) (name : option string) (e : exn) :
  _should_pickle_by_reference _getattribute by_value mods obj name = Raise e →
  _should_pickle_by_reference _getattribute by_value' mods obj name = Raise e.
Proof.
  unfold _should_pickle_by_reference.
  destruct (match name with Some _ => name | None => obj___name__ obj end) as [n|];
    [|discriminate].
  destruct (_whichmodule _getattribute mods obj n) as [[m|]|e'] eqn:Hw; simpl;
    [|discriminate|done].
  destruct (bool_decide (m = "__main__")); [discriminate|].
  destruct (sys_modules_get mods m) as [module|]; [|discriminate].
  destruct (bool_decide (m ∈ by_value)); [discriminate|].
  by destruct (mod___file__ module).
Qed.

Lemma scan_modules_sound (obj : pyobj) (name : string) (mods : sys_modules)
    (module_name : string) :
  scan_modules _getattribute obj name mods = Ret (Some module_name) →
  ∃ module, (module_name, Some module) ∈ mods ∧
    candidate_matches _getattribute obj name (module_name, Some module).
Proof.
  induction mods as [|[k module] rest IH]; simpl; [discriminate|].
  intros H.
  assert (Hrest : scan_modules _getattribute obj name rest = Ret (Some module_name) →
            ∃ m, (module_name, Some m) ∈ (k, module) :: rest ∧
              candidate_matches _getattribute obj name (module_name, Some m)).
  { intros Hr. destruct (IH Hr) as (m & Hin & Hm). exists m. split; [by right | exact Hm]. }
  case_bool_decide as Hmain; [by apply Hrest|].
  destruct module as [module|]; [|by apply Hrest].
  destruct (_getattribute module name) as [[found parent]|e] eqn:Hget.
  - unfold py_is in H. case_bool_decide as Hfound; [|by apply Hrest].
    injection H as <-. exists module. split; [left|].
    split; [exact Hmain|]. by exists module, found, parent.
  - destruct (is_Exception e); [by apply Hrest | discriminate].
Qed.

Lemma scan_modules_propagates (obj : pyobj) (name : string) (pre post : sys_modules)
    (module_name : string) (module : pymodule) (e : exn) :
  Forall (λ entry, ¬ candidate_matches _getattribute obj name entry ∧
                   raises_only_Exception _getattribute name entry) pre →
  module_name ≠ "__main__" →
  _getattribute module name = Raise e →
  is_Exception e = false →
  scan_modules _getattribute obj name (pre ++ (module_name, Some module) :: post) = Raise e.
Proof.
  intros Hpre Hmain Hget Hbase. induction Hpre as [|[k m] pre [Hno Hexn] _ IH]; simpl.
  - rewrite bool_decide_eq_false_2 by exact Hmain. by rewrite Hget, Hbase.
  - case_bool_decide as Hk; [exact IH|].
    destruct m as [m|]; [|exact IH].
    destruct (_getattribute m name) as [[found parent]|e'] eqn:Hm.
    + unfold py_is. case_bool_decide as Hfound; [|exact IH].
      exfalso. apply Hno. split; [exact Hk|]. by exists m, found, parent.
    + by rewrite (Hexn m e' Hk eq_refl Hm).
Qed.

End ResolverMore.

(** X11. The decision is [True] exactly when a name can be derived, an owning
    module other than ['__main__'] is found, that module is loaded (present in
    [sys.modules] and not [None]), its name is not in the by-value set, and it
    has no [__file__] attribute or one that is not [None]. *)
Theorem by_reference_iff
    (_getattribute : pymodule → string → result (value * value))
    (by_value : gset string) (mods : sys_modules) (obj : pyobj) (name : option string) :
  _should_pickle_by_reference _getattribute by_value mods obj name = Ret true ↔
  ∃ n module_name module,
    derived_name obj name = Some n ∧
    _whichmodule _getattribute mods obj n = Ret (Some module_name) ∧
    module_name ≠ "__main__" ∧
    sys_modules_get mods module_name = Some module ∧
    (module_name ∉ by_value) ∧
    mod___file__ module ≠ FileNone.
Proof. apply spbr_true_iff. Qed.

Lemma by_reference_iff_witness :
  _should_pickle_by_reference sample_getattribute ∅ sample_modules func_no_module None
    = Ret true.
Proof.
  apply by_reference_iff. exists "f", "pkg", mod_pkg.
  split; [reflexivity|]. split; [reflexivity|]. split; [discriminate|].
  split; [reflexivity|]. split; [apply not_elem_of_empty | discriminate].
Defined.

(** X12. The by-value set can only take objects away from pickling by reference:
    an object pickled by reference under a set is pickled by reference under
    every smaller set, an object whose owner is in the set never is, and an
    exception raised by the decision does not depend on the set. *)
Theorem by_value_set_antitone
    (_getattribute : pymodule → string → result (value * value))
    (by_value by_value' : gset string) (mods : sys_modules) (obj : pyobj)
    (name : option string) :
  by_value ⊆ by_value' →
  (_should_pickle_by_reference _getattribute by_value' mods obj name = Ret true →
   _should_pickle_by_reference _getattribute by_value mods obj name = Ret true) ∧
  (∀ n module_name,
     derived_name obj name = Some n →
     _whichmodule _getattribute mods obj n = Ret (Some module_name) →
     module_name ∈ by_value →
     _should_pickle_by_reference _getattribute by_value mods obj name = Ret false) ∧
  (∀ e, _should_pickle_by_reference _getattribute by_value mods obj name = Raise e →
        _should_pickle_by_reference _getattribute by_value' mods obj name = Raise e).
Proof.
  intros Hsub. split; [|split].
  - rewrite !spbr_true_iff.
    intros (n & m & module & Hn & Hw & Hmain & Hget & Hby & Hfile).
    exists n, m, module. repeat split; try done. intros Hin. apply Hby. by apply Hsub.
  - intros n m Hn Hw Hin. unfold _should_pickle_by_reference, derived_name in *.
    rewrite Hn, Hw. simpl. case_bool_decide; [reflexivity|].
    destruct (sys_modules_get mods m); [|reflexivity].
    by rewrite bool_decide_eq_true_2.
  - intros e. apply spbr_raise_indep.
Qed.

Lemma by_value_set_antitone_witness :
  (_should_pickle_by_reference sample_getattribute {["other"]} sample_modules func_in_pkg None
     = Ret true →
   _should_pickle_by_reference sample_getattribute ∅ sample_modules func_in_pkg None
     = Ret true) ∧
  _should_pickle_by_reference sample_getattribute {["pkg"]} sample_modules func_in_pkg None
    = Ret false.
Proof.
  split.
  - apply (by_value_set_antitone sample_getattribute ∅ {["other"]}). apply empty_subseteq.
  - destruct (by_value_set_antitone sample_getattribute {["pkg"]} {["pkg"]}
                sample_modules func_in_pkg None) as (_ & H & _); [reflexivity|].
    apply (H "f" "pkg"); [reflexivity | reflexivity | by apply elem_of_singleton].
Defined.

(** X13. What a scan returns is sound whatever the lookups raise: the name
    returned is never ['__main__'], it is the name of a loaded module, and
    that module's lookup of the name yields the object itself. *)
Theorem whichmodule_scan_sound
    (_getattribute : pymodule → string → result (value * value))
    (mods : sys_modules) (obj : pyobj) (name module_name : string) :
  obj___module__ obj = None →
  _whichmodule _getattribute mods obj name = Ret (Some module_name) →
  module_name ≠ "__main__" ∧
  ∃ module found parent,
    (module_name, Some module) ∈ mods ∧
    _getattribute module name = Ret (found, parent) ∧
    found = obj_value obj.
Proof.
  intros Hnone. unfold _whichmodule. rewrite Hnone, andb_false_r.
  intros H. destruct (scan_modules_sound _getattribute obj name mods module_name H)
    as (module & Hin & Hmain & m & found & parent & [= <-] & Hget & Hfound).
  split; [exact Hmain|]. by exists module, found, parent.
Qed.

Lemma whichmodule_scan_sound_witness :
  "pkg" ≠ "__main__" ∧
  ∃ module found parent,
    ("pkg", Some module) ∈ sample_modules ∧
    sample_getattribute module "f" = Ret (found, parent) ∧
    found = obj_value func_no_module.
Proof.
  apply (whichmodule_scan_sound sample_getattribute sample_modules func_no_module "f" "pkg");
    reflexivity.
Defined.

(** X14. [except Exception] lets an exception that derives from [BaseException]
    only go through: when such an exception is raised by a candidate that
    comes before any match, [_whichmodule] raises it, and so does
    [_should_pickle_by_reference]. *)
Theorem whichmodule_scan_propagates
    (_getattribute : pymodule → string → result (value * value))
    (by_value : gset string) (pre post : sys_modules) (module_name : string)
    (module : pymodule) (obj : pyobj) (name : string) (e : exn) :
  obj___module__ obj = None →
  Forall (λ entry, ¬ candidate_matches _getattribute obj name entry ∧
                   raises_only_Exception _getattribute name entry) pre →
  module_name ≠ "__main__" →
  _getattribute module name = Raise e →
  is_Exception e = false →
  _whichmodule _getattribute (pre ++ (module_name, Some module) :: post) obj name = Raise e ∧
  _should_pickle_by_reference _getattribute by_value
    (pre ++ (module_name, Some module) :: post) obj (Some name) = Raise e.
Proof.
  intros Hnone Hpre Hmain Hget Hbase.
  assert (Hw : _whichmodule _getattribute (pre ++ (module_name, Some module) :: post) obj name
               = Raise e).
  { unfold _whichmodule. rewrite Hnone, andb_false_r.
    by apply scan_modules_propagates. }
  split; [exact Hw|]. unfold _should_pickle_by_reference. by rewrite Hw.
Qed.

(** X15. An object that declares its module is resolved without a scan: the
    decision does not depend on what the lookups in other modules do, and it
    never raises. *)
Theorem declared_module_no_scan
    (g1 g2 : pymodule → string → result (value * value))
    (by_value : gset string) (mods : sys_modules) (obj : pyobj) (name : option string)
    (module_name : string) :
  obj___module__ obj = Some module_name →
  _should_pickle_by_reference g1 by_value mods obj name
    = _should_pickle_by_reference g2 by_value mods obj name ∧
  ∃ b, _should_pickle_by_reference g1 by_value mods obj name = Ret b.
Proof.
  intros Hm. unfold _should_pickle_by_reference.
  destruct (match name with Some _ => name | None => obj___name__ obj end) as [n|];
    [|split; [reflexivity | by exists false]].
  rewrite !(whichmodule_declared _ mods obj n module_name Hm). simpl.
  split; [reflexivity|].
  case_bool_decide; [by exists false|].
  destruct (sys_modules_get mods module_name) as [module|]; [|by exists false].
  case_bool_decide; [by exists false|].
  destruct (mod___file__ module); eauto.
Qed.

Lemma whichmodule_scan_propagates_witness :
  _whichmodule interrupted_getattribute sample_modules func_no_module "f"
    = Raise KeyboardInterrupt ∧
  _should_pickle_by_reference interrupted_getattribute ∅ sample_modules func_no_module
    (Some "f") = Raise KeyboardInterrupt.
Proof.
  apply (whichmodule_scan_propagates interrupted_getattribute ∅
           [("__main__", Some mod_main); ("gone", None); ("broken", Some mod_broken)]
           [("pkg", Some mod_pkg); ("pkg2", Some mod_pkg2)]
           "other" mod_other func_no_module "f" KeyboardInterrupt).
  - reflexivity.
  - repeat constructor.
    + intros [Hmain _]. by apply Hmain.
    + intros module e Hmain. by destruct Hmain.
    + intros (_ & module & found & parent & Hm & _). discriminate Hm.
    + intros module e _ Hm. discriminate Hm.
    + intros (_ & module & found & parent & [= <-] & Hget & _). discriminate Hget.
    + intros module e _ [= <-] [= <-]. reflexivity.
  - discriminate.
  - reflexivity.
  - reflexivity.
Defined.

Lemma declared_module_no_scan_witness :
  _should_pickle_by_reference sample_getattribute ∅ sample_modules func_in_pkg None
    = _should_pickle_by_reference interrupted_getattribute ∅ sample_modules func_in_pkg None ∧
  ∃ b, _should_pickle_by_reference sample_getattribute ∅ sample_modules func_in_pkg None = Ret b.
Proof.
  apply (declared_module_no_scan sample_getattribute interrupted_getattribute ∅
           sample_modules func_in_pkg None "pkg").
  reflexivity.
Defined.

(** ** The global-binding extractor, continued *)

Lemma extract_code_globals_unfold instrs names consts (cache : extract_cache) :
  _extract_code_globals (PyCode instrs names consts) cache =
    match cache_lookup cache (PyCode instrs names consts) with
    | Some out_names => (Ret out_names, cache)
    | None =>
        match collect_global_names names (_walk_global_ops (PyCode instrs names consts)) ∅ with
        | Raise e => (Raise e, cache)
        | Ret out_names =>
            match extract_nested _extract_code_globals consts out_names cache with
            | (Ret out_names, cache) =>
                (Ret out_names, cache_store (PyCode instrs names consts) out_names cache)
            | (Raise e, cache) => (Raise e, cache)
            end
        end
    end.
Proof. reflexivity. Qed.

Lemma collect_global_names_raises (names : list string) (instrs : list instr)
    (acc : gset string) (i : instr) :
  i ∈ instrs → instr_opcode i ∈ GLOBAL_OPS → (length names ≤ instr_arg i)%nat →
  collect_global_names names instrs acc = Raise IndexError.
Proof.
  intros Hi Hop Hout. revert acc.
  induction instrs as [|j rest IH]; intros acc; [by apply elem_of_nil in Hi|].
  simpl. case_bool_decide as Hj.
  - unfold names_getitem. destruct (names !! instr_arg j) as [n|] eqn:Hn; [|reflexivity].
    simpl. apply IH. apply elem_of_cons in Hi as [->|Hi]; [|exact Hi].
    apply lookup_lt_Some in Hn. lia.
  - apply IH. apply elem_of_cons in Hi as [->|Hi]; [|exact Hi].
    exfalso. apply Hj. by apply global_opname_iff.
Qed.

(** X16. A global instruction whose argument does not index [co_names] makes the
    call on a unit that is not in the memo table raise [IndexError]; this
    happens before any nested unit is visited, and the table is left as it
    was. *)
Theorem extract_code_globals_index_error (co : pycode) (cache : extract_cache) (i : instr) :
  cache_lookup cache co = None →
  i ∈ co_instrs co → instr_opcode i ∈ GLOBAL_OPS → (length (co_names co) ≤ instr_arg i)%nat →
  _extract_code_globals co cache = (Raise IndexError, cache).
Proof.
  intros Hmiss Hi Hop Hout. destruct co as [instrs names consts].
  rewrite extract_code_globals_unfold, Hmiss.
  rewrite (collect_global_names_raises names _ ∅ i); [reflexivity | | exact Hop | exact Hout].
  apply walk_global_ops_elem. by split.
Qed.

Lemma extract_code_globals_index_error_witness :
  _extract_code_globals (PyCode [Instr LOAD_GLOBAL 3] ["print"] [ConstCode inner_code]) []
    = (Raise IndexError, []).
Proof.
  apply (extract_code_globals_index_error _ [] (Instr LOAD_GLOBAL 3)).
  - reflexivity.
  - simpl. left.
  - simpl. unfold GLOBAL_OPS. right. right. left.
  - simpl. lia.
Defined.

Lemma extract_nested_persists (consts : list pyconst) :
  Forall (λ k, match k with
               | ConstCode c =>
                   ∀ cache k v, cache_lookup cache k = Some v →
                     cache_lookup (_extract_code_globals c cache).2 k = Some v
               | ConstValue _ => True
               end) consts →
  ∀ acc cache k v, cache_lookup cache k = Some v →
    cache_lookup (extract_nested _extract_code_globals consts acc cache).2 k = Some v.
Proof.
  induction 1 as [|[c|x] consts Hc _ IH]; intros acc cache k v Hk; simpl; [exact Hk | |by apply IH].
  specialize (Hc cache k v Hk).
  destruct (_extract_code_globals c cache) as [[s|e] cache1]; simpl in *; [by apply IH | exact Hc].
Qed.

Lemma extract_code_globals_persists (co : pycode) :
  ∀ cache k v, cache_lookup cache k = Some v →
    cache_lookup (_extract_code_globals co cache).2 k = Some v.
Proof.
  induction co as [instrs names consts IH] using pycode_nested_ind.
  intros cache k v Hk. rewrite extract_code_globals_unfold.
  destruct (cache_lookup cache (PyCode instrs names consts)) as [hit|] eqn:Hhit; [exact Hk|].
  destruct (collect_global_names names _ ∅) as [own|e]; [|exact Hk].
  pose proof (extract_nested_persists consts IH own cache k v Hk) as Hnested.
  destruct (extract_nested _extract_code_globals consts own cache) as [[s|e] cache1];
    cbn [snd] in *; [|exact Hnested].
  rewrite cache_lookup_store. destruct (decide (PyCode instrs names consts = k)) as [<-|_];
    [congruence | exact Hnested].
Qed.

(** X17. A call never changes or removes an entry of the memo table, whether it
    returns or raises: what was memoized for a unit stays memoized. *)
Theorem extract_code_globals_keeps_entries (co k : pycode) (cache : extract_cache)
    (v : gset string) :
  cache_lookup cache k = Some v →
  cache_lookup (_extract_code_globals co cache).2 k = Some v.
Proof. apply extract_code_globals_persists. Qed.

Lemma extract_code_globals_keeps_entries_witness :
  cache_lookup (_extract_code_globals outer_code [(inner_code, {["tmp"]})]).2 inner_code
    = Some {["tmp"]}.
Proof. apply (extract_code_globals_keeps_entries outer_code inner_code). reflexivity. Defined.

Lemma extract_nested_caches (consts : list pyconst) (acc : gset string)
    (cache : extract_cache) (c : pycode) :
  cache_sound Before_3_11 cache →
  (∀ c', ConstCode c' ∈ consts → code_wf c') →
  ConstCode c ∈ consts →
  is_Some (cache_lookup (extract_nested _extract_code_globals consts acc cache).2 c).
Proof.
  revert acc cache. induction consts as [|[c0|x] consts IH]; intros acc cache Hsound Hwf Hin.
  - by apply elem_of_nil in Hin.
  - simpl.
    destruct (extract_code_globals_ok c0 cache Hsound) as (s0 & cache1 & Hrun & _ & Hsound1 & Hhit).
    { apply Hwf. left. }
    rewrite Hrun. apply elem_of_cons in Hin as [[= ->]|Hin].
    + exists s0. apply extract_nested_persists; [|exact Hhit].
      apply Forall_forall. intros [c'|x] _; [|exact I]. apply extract_code_globals_persists.
    + apply IH; [exact Hsound1 | | exact Hin]. intros c' Hc'. apply Hwf. by right.
  - simpl. apply elem_of_cons in Hin as [Heq|Hin]; [discriminate Heq|].
    apply IH; [exact Hsound | | exact Hin]. intros c' Hc'. apply Hwf. by right.
Qed.

(** X18. On an interpreter before CPython 3.11 the memo table is filled for
    the nested units as well: after a call on a unit that was not in the table,
    every unit held among its constants is in the table with exactly its own
    names, all of which are in the result. *)
Theorem extract_code_globals_memoizes_nested (co : pycode) (cache : extract_cache) :
  cache_sound Before_3_11 cache →
  code_wf co →
  cache_lookup cache co = None →
  ∃ s cache',
    _extract_code_globals co cache = (Ret s, cache') ∧
    ∀ c, ConstCode c ∈ co_consts co →
      ∃ sc, cache_lookup cache' c = Some sc ∧
            (∀ n, n ∈ sc ↔ names_global Before_3_11 c n) ∧
            sc ⊆ s.
Proof.
  intros Hsound Hwf Hmiss.
  destruct (extract_code_globals_ok co cache Hsound Hwf) as (s & cache' & Hrun & Hs & Hsound' & _).
  exists s, cache'. split; [exact Hrun|]. intros c Hc.
  assert (Hcached : is_Some (cache_lookup cache' c)).
  { destruct co as [instrs names consts]. inversion Hwf as [? Hargs Hnested]; subst.
    rewrite extract_code_globals_unfold, Hmiss in Hrun.
    destruct (collect_global_names names _ ∅) as [own|e]; [|discriminate Hrun].
    pose proof (extract_nested_caches consts own cache c Hsound Hnested Hc) as Hn.
    destruct (extract_nested _extract_code_globals consts own cache) as [[s1|e] cache1];
      [|discriminate Hrun].
    injection Hrun as <- <-. rewrite cache_lookup_store.
    destruct (decide (PyCode instrs names consts = c)); [eauto | exact Hn]. }
  destruct Hcached as [sc Hsc]. exists sc. split; [exact Hsc|].
  pose proof (Hsound' c sc Hsc) as Hspec. split; [exact Hspec|].
  intros n Hn. apply Hs. apply (names_global_nested Before_3_11 co c n Hc). by apply Hspec.
Qed.

Lemma extract_code_globals_memoizes_nested_witness :
  ∃ s cache',
    _extract_code_globals outer_code [] = (Ret s, cache') ∧
    ∀ c, ConstCode c ∈ co_consts outer_code →
      ∃ sc, cache_lookup cache' c = Some sc ∧
            (∀ n, n ∈ sc ↔ names_global Before_3_11 c n) ∧
            sc ⊆ s.
Proof.
  apply (extract_code_globals_memoizes_nested outer_code []).
  - exact cache_sound_empty.
  - exact outer_code_wf.
  - reflexivity.
Defined.

(** ** [_find_imported_submodules] *)

Section SubmodulesFacts.

Variable py_getattr : pymodule → string → result value.

Lemma find_submodule_no_dependency (name : string) (mods : sys_modules) :
  find_submodule py_getattr [] name mods = Ret None.
Proof.
  induction mods as [|[module_name [module|]] rest IH]; simpl; [reflexivity | |];
    case_bool_decide; exact IH.
Qed.

Lemma submodules_of_names_no_dependency (mods : sys_modules) (names : list string)
    (acc : list pymodule) :
  submodules_of_names py_getattr [] mods names acc = Ret acc.
Proof.
  revert acc. induction names as [|name rest IH]; intros acc; simpl; [reflexivity|].
  rewrite find_submodule_no_dependency. simpl. apply IH.
Qed.

Lemma is_dependency_elim (module_name : string) (deps : list pymodule) :
  is_dependency module_name deps = true →
  ∃ dependency, dependency ∈ deps ∧
    (module_name = mod___name__ dependency ∨
     String.prefix (mod___name__ dependency +:+ ".") module_name = true).
Proof.
  induction deps as [|d deps IH]; simpl; [discriminate|].
  case_bool_decide as Heq.
  - intros _. exists d. split; [left | by left].
  - destruct (String.prefix _ module_name) eqn:Hp.
    + intros _. exists d. split; [left | by right].
    + intros H. destruct (IH H) as (d' & Hin & Hd'). exists d'. split; [by right | exact Hd'].
Qed.

Lemma find_submodule_sound (deps : list pymodule) (name : string) (mods : sys_modules)
    (module : pymodule) :
  find_submodule py_getattr deps name mods = Ret (Some module) →
  loaded_dependency deps mods module.
Proof.
  induction mods as [|[module_name m] rest IH]; simpl; [discriminate|].
  intros H.
  assert (Hrest : find_submodule py_getattr deps name rest = Ret (Some module) →
            loaded_dependency deps ((module_name, m) :: rest) module).
  { intros Hr. destruct (IH Hr) as (k & d & Hin & Hk & Hd & Hname).
    exists k, d. split; [by right | done]. }
  case_bool_decide as Hmain; [by apply Hrest|].
  destruct m as [m|]; [|by apply Hrest].
  destruct (is_dependency module_name deps) eqn:Hdep; simpl in H; [|by apply Hrest].
  destruct (exposes py_getattr m name) as [[|]|e]; simpl in H;
    [|by apply Hrest|discriminate H].
  injection H as <-. destruct (is_dependency_elim module_name deps Hdep) as (d & Hd & Hname).
  exists module_name, d. split; [left | done].
Qed.

Lemma submodules_of_names_sound (deps : list pymodule) (mods : sys_modules)
    (names : list string) (acc out : list pymodule) :
  Forall (loaded_dependency deps mods) acc →
  submodules_of_names py_getattr deps mods names acc = Ret out →
  Forall (loaded_dependency deps mods) out.
Proof.
  revert acc. induction names as [|name rest IH]; intros acc Hacc; simpl.
  - by intros [= <-].
  - destruct (find_submodule py_getattr deps name mods) as [[m|]|e] eqn:Hfind; simpl;
      [| by apply IH | discriminate].
    apply IH. apply Forall_app. split; [exact Hacc|].
    constructor; [|constructor]. by apply (find_submodule_sound deps name).
Qed.

Lemma find_imported_submodules_unfold (deps : list pymodule) (mods : sys_modules)
    instrs names consts :
  _find_imported_submodules py_getattr deps mods (PyCode instrs names consts) =
    (submodules ← submodules_of_names py_getattr deps mods names [];
     submodules_of_consts (_find_imported_submodules py_getattr deps mods) consts submodules).
Proof. reflexivity. Qed.

Lemma find_imported_submodules_no_dependency (mods : sys_modules) (code : pycode) :
  _find_imported_submodules py_getattr [] mods code = Ret [].
Proof.
  induction code as [instrs names consts IH] using pycode_nested_ind.
  rewrite find_imported_submodules_unfold, submodules_of_names_no_dependency. simpl.
  assert (Hloop : ∀ acc,
            submodules_of_consts (_find_imported_submodules py_getattr [] mods) consts acc
            = Ret acc); [|apply Hloop].
  induction IH as [|[c|x] consts Hc _ IHc]; intros acc; simpl; [reflexivity | | apply IHc].
  rewrite Hc. simpl. rewrite app_nil_r. apply IHc.
Qed.

Lemma find_imported_submodules_sound (deps : list pymodule) (mods : sys_modules)
    (code : pycode) :
  ∀ out, _find_imported_submodules py_getattr deps mods code = Ret out →
    Forall (loaded_dependency deps mods) out.
Proof.
  induction code as [instrs names consts IH] using pycode_nested_ind.
  intros out. rewrite find_imported_submodules_unfold.
  destruct (submodules_of_names py_getattr deps mods names []) as [own|e] eqn:Hown; simpl;
    [|discriminate].
  assert (Hacc : Forall (loaded_dependency deps mods) own).
  { apply (submodules_of_names_sound deps mods names [] own); [constructor | exact Hown]. }
  clear Hown. revert own Hacc out.
  induction IH as [|[c|x] consts Hc _ IHc]; intros acc Hacc out; simpl.
  - by intros [= <-].
  - destruct (_find_imported_submodules py_getattr deps mods c) as [nested|e]; simpl;
      [|discriminate].
    apply IHc. apply Forall_app. split; [exact Hacc | by apply Hc].
  - by apply IHc.
Qed.

End SubmodulesFacts.

(** X19. With no declared top-level dependency, no module is reported, whatever
    the unit names and whatever the loaded modules expose; no attribute of a
    module is even looked up, so the call cannot raise. *)
Theorem find_imported_submodules_no_dependency_empty
    (py_getattr : pymodule → string → result value) (mods : sys_modules) (code : pycode) :
  _find_imported_submodules py_getattr [] mods code = Ret [].
Proof. apply find_imported_submodules_no_dependency. Qed.

(** X20. Every module reported is loaded in [sys.modules] under a name other than
    ['__main__'], and that name is the name of a declared dependency or
    starts with such a name followed by a dot. *)
Theorem find_imported_submodules_reports_dependencies
    (py_getattr : pymodule → string → result value) (top_level_dependencies : list pymodule)
    (mods : sys_modules) (code : pycode) (submodules : list pymodule) :
  _find_imported_submodules py_getattr top_level_dependencies mods code = Ret submodules →
  ∀ module, module ∈ submodules → loaded_dependency top_level_dependencies mods module.
Proof.
  intros Hrun module Hin.
  pose proof (find_imported_submodules_sound py_getattr _ _ _ _ Hrun) as Hall.
  rewrite Forall_forall in Hall. by apply Hall.
Qed.

Lemma find_imported_submodules_reports_dependencies_witness :
  _find_imported_submodules sample_py_getattr [mod_pkg] modules_with_sub code_using_sub
    = Ret [mod_pkg] ∧
  loaded_dependency [mod_pkg] modules_with_sub mod_pkg.
Proof.
  split; [reflexivity|].
  apply (find_imported_submodules_reports_dependencies sample_py_getattr [mod_pkg]
           modules_with_sub code_using_sub [mod_pkg]).
  - reflexivity.
  - left.
Defined.

(** ** [_class_reduce] *)

Lemma spbr_entry_module (_getattribute : pymodule → string → result (value * value))
    (by_value : gset string) (mods : sys_modules) (obj : pyobj) (name : option string) :
  obj___module__ obj = Some "__main__" →
  _should_pickle_by_reference _getattribute by_value mods obj name = Ret false.
Proof.
  intros Hmain. unfold _should_pickle_by_reference.
  destruct (match name with Some _ => name | None => obj___name__ obj end) as [n|];
    [|reflexivity].
  by rewrite (whichmodule_declared _getattribute mods obj n "__main__" Hmain).
Qed.

(** X21. A class of the entry module that is none of the special types is always
    reduced by value: [_class_reduce] returns the skeleton constructor with
    the class's metaclass, name and bases, its module and qualified name, and
    the tracking id the registry holds for it, whatever the by-value set, the
    loaded modules and the attribute lookups are. *)
Theorem class_reduce_entry_module
    (_getattribute : pymodule → string → result (value * value))
    (module_object_decision : ref → result bool)
    (by_value : gset string) (mods : sys_modules) (_BUILTIN_TYPE_NAMES : gmap ref string)
    (obj : pyclass) (rt : runtime) :
  cls___module__ obj = VStr "__main__" →
  cls_addr obj ≠ addr_NoneType →
  cls_addr obj ≠ addr_EllipsisType →
  cls_addr obj ≠ addr_NotImplementedType →
  _BUILTIN_TYPE_NAMES !! cls_addr obj = None →
  _class_reduce _getattribute module_object_decision by_value mods _BUILTIN_TYPE_NAMES obj rt
    = Ret (CR_reduce
             (ctor__make_skeleton_class,
              Args_skeleton_class (cls_type obj) (cls___name__ obj) (cls___bases__ obj)
                (<["__qualname__" := cls___qualname__ obj]> (<["__module__" := VStr "__main__"]> ∅))
                (_DYNAMIC_CLASS_TRACKER_BY_CLASS rt !! cls_addr obj) VNone)).
Proof.
  intros Hmod Hn He Hni Hb. unfold _class_reduce.
  rewrite !bool_decide_eq_false_2 by done.
  rewrite bool_decide_eq_false_2 by (rewrite Hb; by intros [? ?]).
  unfold class_should_pickle_by_reference. rewrite Hmod.
  rewrite spbr_entry_module by reflexivity.
  simpl. unfold _dynamic_class_reduce. rewrite bool_decide_eq_false_2 by done.
  simpl. by rewrite Hmod.
Qed.

Lemma spbr_declared (_getattribute : pymodule → string → result (value * value))
    (by_value : gset string) (mods : sys_modules) (obj : pyobj) (name : option string)
    (n module_name : string) :
  derived_name obj name = Some n →
  obj___module__ obj = Some module_name →
  _should_pickle_by_reference _getattribute by_value mods obj name =
    if bool_decide (module_name = "__main__") then Ret false
    else match sys_modules_get mods module_name with
         | None => Ret false
         | Some module =>
             if bool_decide (module_name ∈ by_value) then Ret false
             else match mod___file__ module with
                  | NoFileAttr => Ret true
                  | FileNone => Ret false
                  | FilePath _ => Ret true
                  end
         end.
Proof.
  unfold _should_pickle_by_reference, derived_name. intros -> Hm.
  by rewrite (whichmodule_declared _getattribute mods obj n module_name Hm).
Qed.

Lemma class_reduce_entry_module_witness :
  _class_reduce sample_getattribute (λ _, Raise TypeError) {["pkg"]} sample_modules ∅ class_B initial_runtime
    = Ret (CR_reduce
             (ctor__make_skeleton_class,
              Args_skeleton_class addr_type "B" [class_A]
                (<["__qualname__" := VStr "B"]> (<["__module__" := VStr "__main__"]> ∅))
                None VNone)).
Proof.
  apply (class_reduce_entry_module sample_getattribute (λ _, Raise TypeError) {["pkg"]} sample_modules ∅
           class_B initial_runtime); try reflexivity; vm_compute; discriminate.
Defined.

(** X22. For a class that declares a loaded, file-backed module other than
    ['__main__'] and is none of the special types, the by-value set decides:
    when the module's name is not in the set, [_class_reduce] returns
    [NotImplemented] and the class is left to pickling by reference; when it
    is in the set, the class is reduced by value through
    [_dynamic_class_reduce]. *)
Theorem class_reduce_by_policy
    (_getattribute : pymodule → string → result (value * value))
    (module_object_decision : ref → result bool)
    (by_value : gset string) (mods : sys_modules) (_BUILTIN_TYPE_NAMES : gmap ref string)
    (obj : pyclass) (rt : runtime) (module_name : string) (module : pymodule) :
  cls___module__ obj = VStr module_name →
  module_name ≠ "__main__" →
  sys_modules_get mods module_name = Some module →
  mod___file__ module ≠ FileNone →
  cls_addr obj ≠ addr_NoneType →
  cls_addr obj ≠ addr_EllipsisType →
  cls_addr obj ≠ addr_NotImplementedType →
  _BUILTIN_TYPE_NAMES !! cls_addr obj = None →
  _class_reduce _getattribute module_object_decision by_value mods _BUILTIN_TYPE_NAMES obj rt
    = if bool_decide (module_name ∈ by_value)
      then Ret (CR_reduce (_dynamic_class_reduce obj rt).1)
      else Ret CR_NotImplemented.
Proof.
  intros Hmod Hmain Hget Hfile Hn He Hni Hb. unfold _class_reduce.
  rewrite !bool_decide_eq_false_2 by done.
  rewrite bool_decide_eq_false_2 by (rewrite Hb; by intros [? ?]).
  unfold class_should_pickle_by_reference. rewrite Hmod.
  rewrite (spbr_declared _getattribute by_value mods _ None (cls___name__ obj) module_name)
    by reflexivity.
  rewrite bool_decide_eq_false_2 by exact Hmain. rewrite Hget.
  case_bool_decide; [reflexivity|]. by destruct (mod___file__ module).
Qed.

Lemma class_reduce_by_policy_witness :
  _class_reduce sample_getattribute (λ _, Raise TypeError) ∅ sample_modules ∅ class_in_pkg initial_runtime
    = Ret CR_NotImplemented ∧
  _class_reduce sample_getattribute (λ _, Raise TypeError) {["pkg"]} sample_modules ∅ class_in_pkg initial_runtime
    = Ret (CR_reduce (_dynamic_class_reduce class_in_pkg initial_runtime).1).
Proof.
  split.
  - rewrite (class_reduce_by_policy sample_getattribute (λ _, Raise TypeError) ∅ sample_modules ∅ class_in_pkg
               initial_runtime "pkg" mod_pkg); try reflexivity; vm_compute; discriminate.
  - rewrite (class_reduce_by_policy sample_getattribute (λ _, Raise TypeError) {["pkg"]} sample_modules ∅ class_in_pkg
               initial_runtime "pkg" mod_pkg); try reflexivity; vm_compute; discriminate.
Defined.
